(** * ChatUI: conversation, attachment and dispatch logic

    A shallow embedding of [src/components/ChatUI.tsx]: the component's
    state variables, its event handlers ([handleSend], [callGeminiAPI],
    [handleFileUpload], [extractTextFromPDF], [removeFile]) and the event
    loop that interleaves them, followed by the properties of the
    conversation log, the model session and the attachment store. *)

From Stdlib Require Import List String Ascii ZArith Lia Bool Arith DecimalString.
Import ListNotations.
Open Scope string_scope.

(** ** JavaScript primitives used by the component

    Strings are sequences of code units below 256; [nl] is the line feed
    written [\n] in the source. *)
Module JS.

Definition nl : string := String "010" EmptyString.

(** The WhiteSpace and LineTerminator code points of ECMAScript that are
    below 256: TAB, LF, VT, FF, CR, SP and NBSP. *)
Definition isWhiteSpace (c : ascii) : bool :=
  let n := nat_of_ascii c in
  (((9 <=? n) && (n <=? 13)) || (n =? 32) || (n =? 160))%nat.

Fixpoint trimStart (s : string) : string :=
  match s with
  | EmptyString => EmptyString
  | String c s' => if isWhiteSpace c then trimStart s' else s
  end.

Fixpoint trimEnd (s : string) : string :=
  match s with
  | EmptyString => EmptyString
  | String c s' =>
      match trimEnd s' with
      | EmptyString => if isWhiteSpace c then EmptyString else String c EmptyString
      | t => String c t
      end
  end.

(** [String.prototype.trim] *)
Definition trim (s : string) : string := trimEnd (trimStart s).

(** [Array.prototype.join] on an array of strings *)
Fixpoint join (sep : string) (l : list string) : string :=
  match l with
  | [] => ""
  | [x] => x
  | x :: rest => x ++ sep ++ join sep rest
  end.

(** Truthiness of a string: only the empty string is falsy. *)
Definition truthy (s : string) : bool :=
  match s with
  | EmptyString => false
  | String _ _ => true
  end.

(** A number inside a template literal: its decimal digits. *)
Definition ofNat (n : nat) : string := NilZero.string_of_uint (Nat.to_uint n).
Definition ofZ (z : Z) : string := NilZero.string_of_int (Z.to_int z).

(** [Array.prototype.filter] with the two-argument callback [(x, i)] *)
Fixpoint filteri {A : Type} (f : A -> nat -> bool) (i : nat) (l : list A) : list A :=
  match l with
  | [] => []
  | x :: rest => if f x i then x :: filteri f (S i) rest else filteri f (S i) rest
  end.

(** Optional chaining: [a?.[0]] and [a?.field] *)
Definition optHead {A : Type} (a : option (list A)) : option A :=
  match a with
  | Some (x :: _) => Some x
  | _ => None
  end.

Definition optField {A B : Type} (f : A -> option B) (a : option A) : option B :=
  match a with
  | Some x => f x
  | None => None
  end.

(** [a || b] where [a] is a string or undefined *)
Definition orElse (a : option string) (b : string) : string :=
  match a with
  | Some s => if truthy s then s else b
  | None => b
  end.

End JS.
Import JS.

(** ** Data model *)

Inductive Sender := user | assistant.

Record Message := {
  id : string;
  sender : Sender;
  text : string;
  timestamp : Z;
  hasAttachment : option bool;
  attachmentName : option string
}.

Inductive Role := role_user | role_model.

Record Part := { part_text : string }.

Record GeminiContent := {
  role : Role;
  parts : list Part
}.

(** The [type] field of an [UploadedFile] is the constant ['pdf']. *)
Record UploadedFile := {
  name : string;
  content : string
}.

(** The component's state variables (the [useState] cells that the handlers
    read and write). *)
Record State := {
  messages : list Message;
  conversationHistory : list GeminiContent;
  input : string;
  isTyping : bool;
  uploadedFiles : list UploadedFile;
  isProcessingFile : bool;
  pdfJsLoaded : bool
}.

(** *** The completion service, seen from [fetch]

    The body is typed as the optional chain of [callGeminiAPI] reads it:
    every level may be missing. [BodyNull] is a body that parses to [null],
    on which [data.candidates] raises a TypeError; [BodyInvalid] is a body
    on which [response.json()] rejects. *)
Record ResponsePart := { rp_text : option string }.
Record ResponseContent := { rc_parts : option (list ResponsePart) }.
Record Candidate := { cand_content : option ResponseContent }.
Record ResponseData := { candidates : option (list Candidate) }.

Inductive Body :=
| BodyInvalid
| BodyNull
| BodyData (data : ResponseData).

Inductive FetchResult :=
| FetchRejects
| FetchResponse (status : Z) (body : Body).

(** [response.ok]: the status is in the range 200-299. *)
Definition ok (status : Z) : bool := ((200 <=? status) && (status <=? 299))%Z.

(** *** Uploaded files, seen from FileReader and PDF.js *)
Record TextItem := { str : string }.

Inductive PageResult :=
| PageFails
| PageText (items : list TextItem).

Record PDFDocument := {
  numPages : nat;
  getPage : nat -> PageResult
}.

(** What reading the file gives: [Unreadable] when the FileReader fails,
    otherwise the document that [getDocument] resolves to, or [None] when
    it rejects. *)
Inductive FileData :=
| Unreadable
| Readable (document : option PDFDocument).

Record File := {
  file_name : string;
  file_type : string;
  file_data : FileData
}.

(** *** What a handler does to the outside *)
Inductive Effect :=
| Alert (msg : string)
| Post (contents : list GeminiContent)
| GetPage (i : nat).

Inductive Error :=
| JsError (message : string)
| NetworkError
| SyntaxError
| TypeError
| PdfJsError.

(** ** Handler programs

    A handler is a tree of the actions it performs: state updates (the
    [setX] calls, each a function of the state current when it runs),
    effects, clock readings and the points at which an async function is
    suspended. The values a handler reads from its closure are those of the
    render that created it; they are arguments of the handler. *)
Inductive Prog (A : Type) : Type :=
| Ret (a : A)
| Raise (e : Error)
| Update (f : State -> State) (k : Prog A)
| Emit (o : Effect) (k : Prog A)
| Now (k : Z -> Prog A)
| Fetch (contents : list GeminiContent) (k : FetchResult -> Prog A)
| Yield (k : Prog A).

Arguments Ret {A} a.
Arguments Raise {A} e.
Arguments Update {A} f k.
Arguments Emit {A} o k.
Arguments Now {A} k.
Arguments Fetch {A} contents k.
Arguments Yield {A} k.

Fixpoint bind {A B : Type} (p : Prog A) (f : A -> Prog B) : Prog B :=
  match p with
  | Ret a => f a
  | Raise e => Raise e
  | Update g k => Update g (bind k f)
  | Emit o k => Emit o (bind k f)
  | Now k => Now (fun t => bind (k t) f)
  | Fetch c k => Fetch c (fun r => bind (k r) f)
  | Yield k => Yield (bind k f)
  end.

(** [try { p } catch (error) { h error }] *)
Fixpoint try_catch {A : Type} (p : Prog A) (h : Error -> Prog A) : Prog A :=
  match p with
  | Ret a => Ret a
  | Raise e => h e
  | Update g k => Update g (try_catch k h)
  | Emit o k => Emit o (try_catch k h)
  | Now k => Now (fun t => try_catch (k t) h)
  | Fetch c k => Fetch c (fun r => try_catch (k r) h)
  | Yield k => Yield (try_catch k h)
  end.

(** [try { p } finally { f }] *)
Fixpoint try_finally {A : Type} (p : Prog A) (f : Prog unit) : Prog A :=
  match p with
  | Ret a => bind f (fun _ => Ret a)
  | Raise e => bind f (fun _ => Raise e)
  | Update g k => Update g (try_finally k f)
  | Emit o k => Emit o (try_finally k f)
  | Now k => Now (fun t => try_finally (k t) f)
  | Fetch c k => Fetch c (fun r => try_finally (k r) f)
  | Yield k => Yield (try_finally k f)
  end.

Declare Scope prog_scope.
Delimit Scope prog_scope with prog.
Notation "x <- p ;; q" := (bind p (fun x => q))
  (at level 61, p at next level, right associativity) : prog_scope.
Notation "p ;; q" := (bind p (fun _ => q))
  (at level 61, right associativity) : prog_scope.
Open Scope prog_scope.

Definition Date_now : Prog Z := Now Ret.
Definition alert (msg : string) : Prog unit := Emit (Alert msg) (Ret tt).
Definition update (f : State -> State) : Prog unit := Update f (Ret tt).

(** The setters. A functional update [setX(prev => ...)] is applied to the
    state current when it runs; [setX(v)] stores [v]. *)
Definition setMessages (f : list Message -> list Message) : Prog unit :=
  update (fun s =>
    {| messages := f (messages s);
       conversationHistory := conversationHistory s;
       input := input s;
       isTyping := isTyping s;
       uploadedFiles := uploadedFiles s;
       isProcessingFile := isProcessingFile s;
       pdfJsLoaded := pdfJsLoaded s |}).

Definition setConversationHistory (h : list GeminiContent) : Prog unit :=
  update (fun s =>
    {| messages := messages s;
       conversationHistory := h;
       input := input s;
       isTyping := isTyping s;
       uploadedFiles := uploadedFiles s;
       isProcessingFile := isProcessingFile s;
       pdfJsLoaded := pdfJsLoaded s |}).

Definition setInput (v : string) : Prog unit :=
  update (fun s =>
    {| messages := messages s;
       conversationHistory := conversationHistory s;
       input := v;
       isTyping := isTyping s;
       uploadedFiles := uploadedFiles s;
       isProcessingFile := isProcessingFile s;
       pdfJsLoaded := pdfJsLoaded s |}).

Definition setIsTyping (b : bool) : Prog unit :=
  update (fun s =>
    {| messages := messages s;
       conversationHistory := conversationHistory s;
       input := input s;
       isTyping := b;
       uploadedFiles := uploadedFiles s;
       isProcessingFile := isProcessingFile s;
       pdfJsLoaded := pdfJsLoaded s |}).

Definition setUploadedFiles (f : list UploadedFile -> list UploadedFile) : Prog unit :=
  update (fun s =>
    {| messages := messages s;
       conversationHistory := conversationHistory s;
       input := input s;
       isTyping := isTyping s;
       uploadedFiles := f (uploadedFiles s);
       isProcessingFile := isProcessingFile s;
       pdfJsLoaded := pdfJsLoaded s |}).

Definition setIsProcessingFile (b : bool) : Prog unit :=
  update (fun s =>
    {| messages := messages s;
       conversationHistory := conversationHistory s;
       input := input s;
       isTyping := isTyping s;
       uploadedFiles := uploadedFiles s;
       isProcessingFile := b;
       pdfJsLoaded := pdfJsLoaded s |}).

Definition setPdfJsLoaded (b : bool) : Prog unit :=
  update (fun s =>
    {| messages := messages s;
       conversationHistory := conversationHistory s;
       input := input s;
       isTyping := isTyping s;
       uploadedFiles := uploadedFiles s;
       isProcessingFile := isProcessingFile s;
       pdfJsLoaded := b |}).

(** ** The handlers *)

(** [await fetch(GEMINI_API_URL, {... body: {contents} })] together with the
    later [await response.json()]: nothing is read or written between the
    two, so the model suspends once and receives status and body together. *)
Definition fetch (contents : list GeminiContent) : Prog (Z * Body) :=
  Fetch contents (fun r =>
    match r with
    | FetchRejects => Raise NetworkError
    | FetchResponse status body => Ret (status, body)
    end).

Definition response_json (body : Body) : Prog (option ResponseData) :=
  match body with
  | BodyInvalid => Raise SyntaxError
  | BodyNull => Ret None
  | BodyData data => Ret (Some data)
  end.

(** [data.candidates], a plain property access: it throws on [null]. *)
Definition data_candidates (data : option ResponseData) : Prog (option (list Candidate)) :=
  match data with
  | None => Raise TypeError
  | Some d => Ret (candidates d)
  end.

(** The local [messageForAPI] of [callGeminiAPI]: the user message,
    prefixed with the content of the uploaded files when there are any. *)
Definition messageForAPI (uploadedFiles : list UploadedFile) (userMessage : string)
  (includeFileContent : bool) : string :=
  if includeFileContent && (0 <? List.length uploadedFiles)%nat then
    let fileContext :=
      join (nl ++ nl)
        (map (fun file => "Content from " ++ name file ++ ":" ++ nl ++ content file)
             uploadedFiles) in
    "Context from uploaded files:" ++ nl ++ fileContext ++ nl ++ nl
      ++ "User question: " ++ userMessage
  else userMessage.

(** [data.candidates?.[0]?.content?.parts?.[0]?.text || '...'], from the
    value of [data.candidates] on. *)
Definition aiResponseText (cands : option (list Candidate)) : string :=
  orElse
    (optField rp_text (optHead (optField rc_parts (optField cand_content (optHead cands)))))
    "Sorry, I could not generate a response.".

Definition callGeminiAPI (s : State) (userMessage : string) (includeFileContent : bool)
  : Prog string :=
  try_catch
    (let newUserContent :=
       {| role := role_user;
          parts := [ {| part_text :=
                          messageForAPI (uploadedFiles s) userMessage includeFileContent |} ] |} in
     let updatedHistory := (conversationHistory s ++ [newUserContent])%list in
     response <- fetch updatedHistory ;;
     (if negb (ok (fst response))
      then Raise (JsError ("API request failed: " ++ ofZ (fst response)))
      else Ret tt) ;;
     data <- response_json (snd response) ;;
     cands <- data_candidates data ;;
     let aiContent :=
       {| role := role_model; parts := [ {| part_text := aiResponseText cands |} ] |} in
     setConversationHistory (updatedHistory ++ [aiContent]) ;;
     Ret (aiResponseText cands))
    (fun error =>
       Ret "Sorry, I encountered an error while processing your request. Please try again.").

(** The [try] block of [handleSend]. *)
Definition handleSend_try (s : State) (text : string) : Prog unit :=
  aiResponse <- callGeminiAPI s text (0 <? List.length (uploadedFiles s))%nat ;;
  t_id <- Date_now ;;
  t_ts <- Date_now ;;
  let assistantMessage :=
    {| id := "assistant-" ++ ofZ t_id; sender := assistant; text := aiResponse;
       timestamp := t_ts; hasAttachment := None; attachmentName := None |} in
  setMessages (fun prev => (prev ++ [assistantMessage])%list) ;;
  setUploadedFiles (fun _ => []).

(** The [catch] block of [handleSend]. *)
Definition handleSend_catch (error : Error) : Prog unit :=
  t_id <- Date_now ;;
  t_ts <- Date_now ;;
  let errorMessage :=
    {| id := "assistant-" ++ ofZ t_id; sender := assistant;
       text := "Sorry, I encountered an error. Please try again.";
       timestamp := t_ts; hasAttachment := None; attachmentName := None |} in
  setMessages (fun prev => (prev ++ [errorMessage])%list).

Definition handleSend (s : State) : Prog unit :=
  let text := trim (input s) in
  if negb (truthy text) || isTyping s then Ret tt
  else
    t_id <- Date_now ;;
    t_ts <- Date_now ;;
    let userMessage :=
      {| id := "user-" ++ ofZ t_id; sender := user; text := text; timestamp := t_ts;
         hasAttachment := None; attachmentName := None |} in
    setMessages (fun prev => (prev ++ [userMessage])%list) ;;
    setInput "" ;;
    setIsTyping true ;;
    try_finally
      (try_catch (handleSend_try s text) handleSend_catch)
      (setIsTyping false).

(** The body of [for (let i = 1; i <= pdf.numPages; i++)], entered at [i]
    with [remaining] iterations left. *)
Fixpoint pages_loop (pdf : PDFDocument) (remaining i : nat) (fullText : string)
  : Prog string :=
  match remaining with
  | O => Ret fullText
  | S remaining' =>
      Emit (GetPage i)
        (match getPage pdf i with
         | PageFails => Raise PdfJsError
         | PageText items =>
             let pageText := join " " (map str items) in
             pages_loop pdf remaining' (S i)
               (fullText ++ "Page " ++ ofNat i ++ ":" ++ nl ++ pageText ++ nl ++ nl)
         end)
  end.

Definition getDocument (document : option PDFDocument) : Prog PDFDocument :=
  match document with
  | None => Raise PdfJsError
  | Some pdf => Ret pdf
  end.

Definition extractTextFromPDF (s : State) (window_pdfjsLib : bool) (file : File)
  : Prog string :=
  if negb (pdfJsLoaded s) || negb window_pdfjsLib then Raise (JsError "PDF.js not loaded")
  else
    Yield
      (match file_data file with
       | Unreadable => Raise (JsError "Failed to read file")
       | Readable arrayBuffer =>
           try_catch
             (pdf <- getDocument arrayBuffer ;;
              pages_loop pdf (numPages pdf) 1 "")
             (fun error => Raise error)
       end).

Definition handleFileUpload (s : State) (window_pdfjsLib : bool) (files0 : option File)
  : Prog unit :=
  match files0 with
  | None => Ret tt
  | Some file =>
      if negb (file_type file =? "application/pdf") then
        alert "Please upload only PDF files"
      else if negb (pdfJsLoaded s) then
        alert "PDF processing library is still loading. Please try again in a moment."
      else
        setIsProcessingFile true ;;
        try_finally
          (try_catch
             (extractedText <- extractTextFromPDF s window_pdfjsLib file ;;
              let newFile := {| name := file_name file; content := extractedText |} in
              setUploadedFiles (fun prev => (prev ++ [newFile])%list) ;;
              t_id <- Date_now ;;
              t_ts <- Date_now ;;
              let fileMessage :=
                {| id := "file-" ++ ofZ t_id; sender := user;
                   text := "Uploaded: " ++ file_name file; timestamp := t_ts;
                   hasAttachment := Some true;
                   attachmentName := Some (file_name file) |} in
              setMessages (fun prev => (prev ++ [fileMessage])%list))
             (fun error => alert "Failed to process PDF file. Please try again."))
          (setIsProcessingFile false)
  end.

Definition removeFile (index : nat) : Prog unit :=
  setUploadedFiles (filteri (fun _ i => negb (i =? index)%nat) 0).

(** ** Running a handler

    The world is the component state and the clock: [clock w n] is what the
    [n]-th coming call of [Date.now()] returns. *)
Record World := {
  state : State;
  clock : nat -> Z
}.

Inductive Completion (A : Type) : Type :=
| Return (a : A)
| Throw (e : Error).

Arguments Return {A} a.
Arguments Throw {A} e.

(** How far a handler got: to its end, or to an await. *)
Inductive Status (A : Type) : Type :=
| Done (c : Completion A)
| OnFetch (k : FetchResult -> Prog A)
| OnYield (k : Prog A).

Arguments Done {A} c.
Arguments OnFetch {A} k.
Arguments OnYield {A} k.

(** [exec p w] runs [p] up to its first await. The request of a [Fetch] is
    sent when the await is reached. *)
Fixpoint exec {A : Type} (p : Prog A) (w : World) : World * list Effect * Status A :=
  match p with
  | Ret a => (w, [], Done (Return a))
  | Raise e => (w, [], Done (Throw e))
  | Update f k => exec k {| state := f (state w); clock := clock w |}
  | Emit o k => let '(w', os, st) := exec k w in (w', o :: os, st)
  | Now k => exec (k (clock w 0)) {| state := state w; clock := fun n => clock w (S n) |}
  | Fetch c k => (w, [Post c], OnFetch k)
  | Yield k => (w, [], OnYield k)
  end.

(** [run net p w] runs [p] to its end with nothing else happening at its
    awaits; [net] is what the completion service answers. *)
Fixpoint run {A : Type} (net : FetchResult) (p : Prog A) (w : World)
  : World * list Effect * Completion A :=
  match p with
  | Ret a => (w, [], Return a)
  | Raise e => (w, [], Throw e)
  | Update f k => run net k {| state := f (state w); clock := clock w |}
  | Emit o k => let '(w', os, c) := run net k w in (w', o :: os, c)
  | Now k => run net (k (clock w 0)) {| state := state w; clock := fun n => clock w (S n) |}
  | Fetch c k => let '(w', os, r) := run net (k net) w in (w', Post c :: os, r)
  | Yield k => run net k w
  end.

(** ** The event loop

    The component between two events: its world, whether the PDF.js script
    has run, and the handlers suspended at an await. Every event is allowed
    in every state, the disabled controls of the page only remove some. *)
Record System := {
  world : World;
  window_pdfjsLib : bool;
  fetching : list (FetchResult -> Prog unit);
  resuming : list (Prog unit)
}.

Inductive Event :=
| Typing (value : string)
| PressSend
| ChooseFile (files0 : option File)
| ClickRemove (index : nat)
| PdfJsLoads
| FetchSettles (n : nat) (net : FetchResult)
| Resumes (n : nat).

Definition remove_at {A : Type} (n : nat) (l : list A) : list A :=
  (firstn n l ++ skipn (S n) l)%list.

(** Run a handler up to its end or its next await, and keep what is left of
    it. *)
Definition launch (p : Prog unit) (sys : System) : System :=
  let '(w, _, st) := exec p (world sys) in
  match st with
  | Done _ =>
      {| world := w; window_pdfjsLib := window_pdfjsLib sys;
         fetching := fetching sys; resuming := resuming sys |}
  | OnFetch k =>
      {| world := w; window_pdfjsLib := window_pdfjsLib sys;
         fetching := (fetching sys ++ [k])%list; resuming := resuming sys |}
  | OnYield k =>
      {| world := w; window_pdfjsLib := window_pdfjsLib sys;
         fetching := fetching sys; resuming := (resuming sys ++ [k])%list |}
  end.

Definition step (sys : System) (e : Event) : System :=
  match e with
  | Typing value => launch (setInput value) sys
  | PressSend => launch (handleSend (state (world sys))) sys
  | ChooseFile files0 =>
      launch (handleFileUpload (state (world sys)) (window_pdfjsLib sys) files0) sys
  | ClickRemove index => launch (removeFile index) sys
  | PdfJsLoads =>
      launch (setPdfJsLoaded true)
        {| world := world sys; window_pdfjsLib := true;
           fetching := fetching sys; resuming := resuming sys |}
  | FetchSettles n net =>
      match nth_error (fetching sys) n with
      | None => sys
      | Some k =>
          launch (k net)
            {| world := world sys; window_pdfjsLib := window_pdfjsLib sys;
               fetching := remove_at n (fetching sys); resuming := resuming sys |}
      end
  | Resumes n =>
      match nth_error (resuming sys) n with
      | None => sys
      | Some k =>
          launch k
            {| world := world sys; window_pdfjsLib := window_pdfjsLib sys;
               fetching := fetching sys; resuming := remove_at n (resuming sys) |}
      end
  end.

Definition steps (sys : System) (es : list Event) : System := fold_left step es sys.

(** The two mount effects: PDF.js is marked loaded when the script is
    already there, and the log starts with the welcome message. *)
Definition mount (window_pdfjsLib : bool) : Prog unit :=
  (if window_pdfjsLib then setPdfJsLoaded true else Ret tt) ;;
  t <- Date_now ;;
  setMessages (fun _ =>
    [ {| id := "welcome"; sender := assistant;
         text := "Hi, how can I help you today? You can also upload PDF files for me to analyze!";
         timestamp := t; hasAttachment := None; attachmentName := None |} ]).

Definition useState : State :=
  {| messages := []; conversationHistory := []; input := ""; isTyping := false;
     uploadedFiles := []; isProcessingFile := false; pdfJsLoaded := false |}.

Definition mounted (clock : nat -> Z) (window_pdfjsLib : bool) : System :=
  launch (mount window_pdfjsLib)
    {| world := {| state := useState; clock := clock |};
       window_pdfjsLib := window_pdfjsLib; fetching := []; resuming := [] |}.

(** The views the properties are about. *)
Definition conversationLog (sys : System) : list Message := messages (state (world sys)).
Definition modelSession (sys : System) : list GeminiContent :=
  conversationHistory (state (world sys)).
Definition attachmentStore (sys : System) : list UploadedFile :=
  uploadedFiles (state (world sys)).

Definition prefix {A : Type} (l1 l2 : list A) : Prop := exists t, l2 = (l1 ++ t)%list.

(** ** Vocabulary of the statements *)

(** The completion-service call succeeds when a response with a success
    status and a body holding an object arrives; in every other case
    (network error, non-success status, a body that does not parse or that
    is [null]) the [try] block of [callGeminiAPI] throws. *)
Definition succeeds (net : FetchResult) : bool :=
  match net with
  | FetchResponse status (BodyData _) => ok status
  | _ => false
  end.

(** The text field at the fixed path: first candidate, first part. *)
Definition replyPath (data : ResponseData) : option string :=
  optField rp_text
    (optHead (optField rc_parts (optField cand_content (optHead (candidates data))))).

Definition fallbackText : string := "Sorry, I could not generate a response.".

Definition apologyText : string :=
  "Sorry, I encountered an error while processing your request. Please try again.".

(** What [callGeminiAPI] hands back for each answer of the service. *)
Definition replyText (net : FetchResult) : string :=
  match net with
  | FetchResponse status (BodyData data) =>
      if ok status then aiResponseText (candidates data) else apologyText
  | _ => apologyText
  end.

(** The turn that a send started in state [s] composes, and the turn of a
    reply. *)
Definition userTurn (s : State) : GeminiContent :=
  {| role := role_user;
     parts := [ {| part_text :=
                     messageForAPI (uploadedFiles s) (trim (input s))
                       (0 <? List.length (uploadedFiles s))%nat |} ] |}.

Definition modelTurn (reply : string) : GeminiContent :=
  {| role := role_model; parts := [ {| part_text := reply |} ] |}.

(** A plain chat bubble, stamped with two clock readings. *)
Definition bubble (tag : string) (who : Sender) (body : string) (t_id t_ts : Z) : Message :=
  {| id := tag ++ ofZ t_id; sender := who; text := body; timestamp := t_ts;
     hasAttachment := None; attachmentName := None |}.

(** A send from the state of [w], with nothing else happening before the
    service answers [net]. *)
Definition send (net : FetchResult) (w : World) : World * list Effect * Completion unit :=
  run net (handleSend (state w)) w.

Definition after {A : Type} (r : World * list Effect * A) : State := state (fst (fst r)).
Definition effects {A : Type} (r : World * list Effect * A) : list Effect := snd (fst r).
Definition result {A : Type} (r : World * list Effect * A) : A := snd r.

(** A straight-line program: effects, then the end. *)
Definition emits {A : Type} (os : list Effect) (k : Prog A) : Prog A :=
  fold_right Emit k os.

Definition finish {A : Type} (c : Completion A) : Prog A :=
  match c with
  | Return a => Ret a
  | Throw e => Raise e
  end.

(** The text of one page, as [extractTextFromPDF] appends it. *)
Definition pageBlock (i : nat) (items : list TextItem) : string :=
  "Page " ++ ofNat i ++ ":" ++ nl ++ join " " (map str items) ++ nl ++ nl.

(** The blocks of the pages [first], [first + 1], ... ([count] of them),
    one after the other; [items i] are the text fragments of page [i]. *)
Definition pagesText (items : nat -> list TextItem) (first count : nat) : string :=
  fold_right append "" (map (fun i => pageBlock i (items i)) (seq first count)).

(** A program without a reachable [throw]. *)
Fixpoint never_raises {A : Type} (p : Prog A) : Prop :=
  match p with
  | Ret _ => True
  | Raise _ => False
  | Update _ k => never_raises k
  | Emit _ k => never_raises k
  | Now k => forall t, never_raises (k t)
  | Fetch _ k => forall r, never_raises (k r)
  | Yield k => never_raises k
  end.

(** Where the suspended handlers of a system come from: [k] is what is left
    of a [handleSend] started in state [s], or of a [handleFileUpload]. *)
Definition sent_from (s : State) (k : FetchResult -> Prog unit) : Prop :=
  exists w w' os, exec (handleSend s) w = (w', os, OnFetch k).

Definition uploading (k : Prog unit) : Prop :=
  exists s lib files0 w w' os,
    exec (handleFileUpload s lib files0) w = (w', os, OnYield k).

(** At most one send is in flight; while it is, the flag is set and the
    model session is the one the send started from. *)
Definition consistent (sys : System) : Prop :=
  Forall uploading (resuming sys) /\
  match fetching sys with
  | [] => True
  | [k] =>
      isTyping (state (world sys)) = true /\
      exists s, sent_from s k /\ conversationHistory s = modelSession sys
  | _ => False
  end.

(** *** Scenarios *)

Definition docPdf (X : string) : UploadedFile := {| name := "doc.pdf"; content := X |}.

(** One pending attachment ["doc.pdf"] with content ["X"], input
    ["Summarize"], an empty log and session. *)
Definition scenarioB : World :=
  {| state :=
       {| messages := []; conversationHistory := []; input := "Summarize";
          isTyping := false; uploadedFiles := [docPdf "X"];
          isProcessingFile := false; pdfJsLoaded := true |};
     clock := fun n => (1700000000000 + Z.of_nat n)%Z |}.

(** A success response whose text field is present and empty. *)
Definition emptyData : ResponseData :=
  {| candidates :=
       Some [ {| cand_content :=
                   Some {| rc_parts := Some [ {| rp_text := Some "" |} ] |} |} ] |}.

Definition emptyReply : FetchResult := FetchResponse 200 (BodyData emptyData).

(** A success response with the text [t] at the fixed path. *)
Definition textReply (t : string) : FetchResult :=
  FetchResponse 200
    (BodyData
       {| candidates :=
            Some [ {| cand_content :=
                        Some {| rc_parts := Some [ {| rp_text := Some t |} ] |} |} ] |}).

(** A document of two pages, and one whose second page cannot be read. *)
Definition twoPages : PDFDocument :=
  {| numPages := 2;
     getPage := fun i =>
       match i with
       | 1 => PageText [ {| str := "Hello" |}; {| str := "world" |} ]
       | _ => PageText [ {| str := "Bye" |} ]
       end |}.

Definition brokenPage : PDFDocument :=
  {| numPages := 3;
     getPage := fun i =>
       match i with
       | 2 => PageFails
       | _ => PageText [ {| str := "text" |} ]
       end |}.

(** The fragments of a page, none when the page cannot be read. *)
Definition getPage_items (pdf : PDFDocument) (i : nat) : list TextItem :=
  match getPage pdf i with
  | PageFails => []
  | PageText items => items
  end.

Definition pdfFile (pdf : PDFDocument) : File :=
  {| file_name := "doc.pdf"; file_type := "application/pdf";
     file_data := Readable (Some pdf) |}.

Definition textFile : File :=
  {| file_name := "notes.txt"; file_type := "text/plain"; file_data := Unreadable |}.

(** *** Keys and controls of the page *)

Record KeyboardEvent := {
  key : string;
  shiftKey : bool
}.

(** [handleKeyDown]: the flag tells whether [e.preventDefault()] was
    called, the program is what the handler starts. *)
Definition handleKeyDown (e : KeyboardEvent) (s : State) : bool * Prog unit :=
  if (key e =? "Enter") && negb (shiftKey e)
  then (true, handleSend s)
  else (false, Ret tt).

(** The [disabled] attributes of the send button, the attach button and
    the text box. *)
Definition sendDisabled (s : State) : bool := negb (truthy (trim (input s))) || isTyping s.
Definition attachDisabled (s : State) : bool := isProcessingFile s || negb (pdfJsLoaded s).
Definition inputDisabled (s : State) : bool := isTyping s.

(** The events the rendered page lets through: the text box takes no
    typing and no key while it is disabled, the attach button opens no file
    dialog while it is disabled, and there is a remove button only on the
    chips shown. *)
Definition allowed (sys : System) (e : Event) : bool :=
  match e with
  | Typing _ => negb (inputDisabled (state (world sys)))
  | PressSend => negb (inputDisabled (state (world sys)))
  | ChooseFile _ => negb (attachDisabled (state (world sys)))
  | ClickRemove index => (index <? List.length (uploadedFiles (state (world sys))))%nat
  | PdfJsLoads => true
  | FetchSettles _ _ => true
  | Resumes _ => true
  end.

Fixpoint page_steps (sys : System) (es : list Event) : option System :=
  match es with
  | [] => Some sys
  | e :: rest => if allowed sys e then page_steps (step sys e) rest else None
  end.

(** *** More vocabulary *)

(** A string of white space only. *)
Fixpoint blank (s : string) : bool :=
  match s with
  | EmptyString => true
  | String c rest => isWhiteSpace c && blank rest
  end.

Fixpoint lastChar (s : string) : option ascii :=
  match s with
  | EmptyString => None
  | String c EmptyString => Some c
  | String _ rest => lastChar rest
  end.

Definition firstChar (s : string) : option ascii :=
  match s with
  | EmptyString => None
  | String c _ => Some c
  end.

(** A session made of exchanges: a user turn, then a model turn, and so
    on. *)
Fixpoint exchanges (h : list GeminiContent) : bool :=
  match h with
  | [] => true
  | u :: t =>
      match role u, t with
      | role_user, m :: rest =>
          match role m with
          | role_model => exchanges rest
          | role_user => false
          end
      | _, _ => false
      end
  end.

(** The attachment and the log entry that a finished upload of [file] with
    extracted text [extractedText] adds. *)
Definition attachmentOf (file : File) (extractedText : string) : UploadedFile :=
  {| name := file_name file; content := extractedText |}.

Definition uploadMessage (file : File) (t_id t_ts : Z) : Message :=
  {| id := "file-" ++ ofZ t_id; sender := user; text := "Uploaded: " ++ file_name file;
     timestamp := t_ts; hasAttachment := Some true;
     attachmentName := Some (file_name file) |}.

(** Extraction of [file] fails: the script is missing, the file cannot be
    read, the document does not open, or one of its pages fails. *)
Definition extractionFails (window_pdfjsLib : bool) (file : File) : Prop :=
  window_pdfjsLib = false \/
  file_data file = Unreadable \/
  file_data file = Readable None \/
  exists pdf k,
    file_data file = Readable (Some pdf) /\ 1 <= k <= numPages pdf /\
    getPage pdf k = PageFails.

(** An upload from the state of [w], with nothing else happening before it
    ends. *)
Definition upload (window_pdfjsLib : bool) (files0 : option File) (w : World)
  : World * list Effect * Completion unit :=
  run FetchRejects (handleFileUpload (state w) window_pdfjsLib files0) w.

Definition typed (value : string) (w : World) : World :=
  fst (fst (run FetchRejects (setInput value) w)).

Definition removed (index : nat) (w : World) : World :=
  fst (fst (run FetchRejects (removeFile index) w)).

(** What is left of a send started in state [s] once its request is
    posted, and of an upload of [file] once the file is being read. *)
Definition sendRest (s : State) : FetchResult -> Prog unit :=
  match exec (handleSend s) {| state := s; clock := fun _ => 0%Z |} with
  | (_, _, OnFetch k) => k
  | _ => fun _ => Ret tt
  end.

Definition uploadRest (s : State) (window_pdfjsLib : bool) (file : File) : Prog unit :=
  match exec (handleFileUpload s window_pdfjsLib (Some file))
          {| state := s; clock := fun _ => 0%Z |} with
  | (_, _, OnYield k) => k
  | _ => Ret tt
  end.

(** The state of a component whose PDF.js script has loaded. *)
Definition useState_loaded : State :=
  {| messages := []; conversationHistory := []; input := ""; isTyping := false;
     uploadedFiles := []; isProcessingFile := false; pdfJsLoaded := true |}.

(** A loaded component with ["Hello"] in its text box. *)
Definition useState_hello : State :=
  {| messages := []; conversationHistory := []; input := "Hello"; isTyping := false;
     uploadedFiles := []; isProcessingFile := false; pdfJsLoaded := true |}.

(** ** Properties of a single send *)

Lemma run_handleSend (s : State) (w : World) (net : FetchResult) :
  truthy (trim (input s)) = true ->
  isTyping s = false ->
  run net (handleSend s) w =
    ({| state :=
          {| messages :=
               (messages (state w)
                  ++ [bubble "user-" user (trim (input s)) (clock w 0%nat) (clock w 1%nat);
                      bubble "assistant-" assistant (replyText net)
                        (clock w 2%nat) (clock w 3%nat)])%list;
             conversationHistory :=
               if succeeds net
               then (conversationHistory s ++ [userTurn s; modelTurn (replyText net)])%list
               else conversationHistory (state w);
             input := "";
             isTyping := false;
             uploadedFiles := [];
             isProcessingFile := isProcessingFile (state w);
             pdfJsLoaded := pdfJsLoaded (state w) |};
        clock := fun n => clock w (S (S (S (S n)))) |},
     [Post (conversationHistory s ++ [userTurn s])%list],
     Return tt).
Proof.
  intros Htext Htyping. unfold handleSend. rewrite Htext, Htyping. cbn.
  destruct net as [|status body]; cbn.
  - rewrite <- app_assoc. reflexivity.
  - destruct (ok status); cbn.
    + destruct body as [| |data]; cbn; rewrite <- !app_assoc; reflexivity.
    + destruct body; rewrite <- app_assoc; reflexivity.
Qed.

Lemma replyText_failure (net : FetchResult) :
  succeeds net = false -> replyText net = apologyText.
Proof.
  destruct net as [|status [| |data]]; cbn; try reflexivity.
  intros ->. reflexivity.
Qed.

Lemma system_eta (sys : System) :
  {| world := world sys; window_pdfjsLib := window_pdfjsLib sys;
     fetching := fetching sys; resuming := resuming sys |} = sys.
Proof. destruct sys; reflexivity. Qed.

(** C1. Retain-on-failure does not hold of the code: [callGeminiAPI]
    swallows the failure and returns the apology, so [handleSend] runs on
    to [setUploadedFiles([])]. With ["doc.pdf"] pending and the service
    unreachable, the attachment store is empty after the send. *)
Theorem failed_send_clears_attachments :
  succeeds FetchRejects = false /\
  uploadedFiles (state scenarioB) = [docPdf "X"] /\
  uploadedFiles (after (send FetchRejects scenarioB)) = [].
Proof. repeat split. Qed.

(** C2. A send whose completion-service call fails adds to the conversation
    log the user's message and exactly one assistant message, whose text is
    the fixed apology; the model session is left as it was. *)
Theorem failed_send_appends_apology (net : FetchResult) (w : World) :
  truthy (trim (input (state w))) = true ->
  isTyping (state w) = false ->
  succeeds net = false ->
  messages (after (send net w)) =
    (messages (state w)
       ++ [bubble "user-" user (trim (input (state w))) (clock w 0%nat) (clock w 1%nat);
           bubble "assistant-" assistant
             "Sorry, I encountered an error while processing your request. Please try again."
             (clock w 2%nat) (clock w 3%nat)])%list /\
  conversationHistory (after (send net w)) = conversationHistory (state w).
Proof.
  intros Htext Htyping Hfail. unfold send.
  rewrite (run_handleSend _ w net Htext Htyping). unfold after; cbn.
  rewrite Hfail, (replyText_failure net Hfail). split; reflexivity.
Qed.

Lemma failed_send_appends_apology_witness :
  messages (after (send FetchRejects scenarioB)) =
    [bubble "user-" user "Summarize" 1700000000000 1700000000001;
     bubble "assistant-" assistant
       "Sorry, I encountered an error while processing your request. Please try again."
       1700000000002 1700000000003] /\
  conversationHistory (after (send FetchRejects scenarioB)) = [].
Proof.
  apply (failed_send_appends_apology FetchRejects scenarioB); reflexivity.
Defined.

(** C3. With the single pending attachment ["doc.pdf"] of content [X] and
    the input ["Summarize"], the turn sent to the service, and appended to
    the model session when the call succeeds, has the text
    ["Context from uploaded files:\nContent from doc.pdf:\nX\n\nUser question: Summarize"],
    while the message appended to the conversation log has the text
    ["Summarize"]. Without pending attachments the turn carries the trimmed
    input unchanged. *)
Theorem composed_turn_and_plain_message (net : FetchResult) (w : World) :
  isTyping (state w) = false ->
  (forall X : string,
     input (state w) = "Summarize" ->
     uploadedFiles (state w) = [docPdf X] ->
     let turn :=
       {| role := role_user;
          parts := [ {| part_text :=
                          "Context from uploaded files:" ++ nl ++ "Content from doc.pdf:" ++ nl
                            ++ X ++ nl ++ nl ++ "User question: Summarize" |} ] |} in
     effects (send net w) = [Post (conversationHistory (state w) ++ [turn])%list] /\
     (succeeds net = true ->
      conversationHistory (after (send net w)) =
        (conversationHistory (state w) ++ [turn; modelTurn (replyText net)])%list) /\
     messages (after (send net w)) =
       (messages (state w)
          ++ [bubble "user-" user "Summarize" (clock w 0%nat) (clock w 1%nat);
              bubble "assistant-" assistant (replyText net)
                (clock w 2%nat) (clock w 3%nat)])%list) /\
  (truthy (trim (input (state w))) = true ->
   uploadedFiles (state w) = [] ->
   let turn :=
     {| role := role_user; parts := [ {| part_text := trim (input (state w)) |} ] |} in
   effects (send net w) = [Post (conversationHistory (state w) ++ [turn])%list] /\
   (succeeds net = true ->
    conversationHistory (after (send net w)) =
      (conversationHistory (state w) ++ [turn; modelTurn (replyText net)])%list)).
Proof.
  intros Htyping. split.
  - intros X Hinput Hfiles turn.
    assert (Htext : truthy (trim (input (state w))) = true) by (rewrite Hinput; reflexivity).
    unfold send. rewrite (run_handleSend _ w net Htext Htyping).
    unfold after, effects, userTurn; cbn. rewrite Hfiles, Hinput.
    repeat split. intros ->. reflexivity.
  - intros Htext Hfiles turn.
    unfold send. rewrite (run_handleSend _ w net Htext Htyping).
    unfold after, effects, userTurn; cbn. rewrite Hfiles.
    repeat split. intros ->. reflexivity.
Qed.

Lemma composed_turn_and_plain_message_witness :
  conversationHistory
    (after (send (FetchResponse 200 (BodyData {| candidates := None |})) scenarioB)) =
    [ {| role := role_user;
         parts := [ {| part_text :=
                         "Context from uploaded files:" ++ nl ++ "Content from doc.pdf:" ++ nl
                           ++ "X" ++ nl ++ nl ++ "User question: Summarize" |} ] |};
      modelTurn "Sorry, I could not generate a response." ].
Proof.
  pose proof (composed_turn_and_plain_message
                (FetchResponse 200 (BodyData {| candidates := None |})) scenarioB
                eq_refl) as [H _].
  destruct (H "X" eq_refl eq_refl) as (_ & Hsession & _).
  exact (Hsession eq_refl).
Defined.

(** C4. After a send that reaches the success branch of the
    completion-service call, the attachment store is empty, whatever it
    held before. *)
Theorem successful_send_clears_attachments (net : FetchResult) (w : World) :
  truthy (trim (input (state w))) = true ->
  isTyping (state w) = false ->
  succeeds net = true ->
  uploadedFiles (after (send net w)) = [].
Proof.
  intros Htext Htyping _. unfold send.
  rewrite (run_handleSend _ w net Htext Htyping). reflexivity.
Qed.

Lemma successful_send_clears_attachments_witness :
  uploadedFiles (state scenarioB) = [docPdf "X"] /\
  uploadedFiles (after (send emptyReply scenarioB)) = [].
Proof.
  split; [reflexivity|].
  apply (successful_send_clears_attachments emptyReply scenarioB); reflexivity.
Defined.

(** ** The reply of the completion service *)

(** C6, as stated, fails: a response whose text field is present and holds
    the empty string is answered with the fallback, not with the field. *)
Lemma present_empty_text_gets_fallback :
  replyPath emptyData = Some "" /\
  result (run emptyReply (callGeminiAPI (state scenarioB) "Summarize" true) scenarioB)
    = Return "Sorry, I could not generate a response." /\
  result (run emptyReply (callGeminiAPI (state scenarioB) "Summarize" true) scenarioB)
    <> Return "".
Proof. repeat split. discriminate. Qed.

(** C6, amended. For a success response the reply is the text field at the
    fixed path (first candidate, first part) when that field is present and
    not empty; when it is absent or empty, the reply is the literal
    ["Sorry, I could not generate a response."]. *)
Theorem reply_text_or_fallback
  (s : State) (userMessage : string) (includeFileContent : bool)
  (status : Z) (data : ResponseData) (w : World) :
  ok status = true ->
  result (run (FetchResponse status (BodyData data))
            (callGeminiAPI s userMessage includeFileContent) w) =
    Return (match replyPath data with
            | Some t => if truthy t then t else "Sorry, I could not generate a response."
            | None => "Sorry, I could not generate a response."
            end).
Proof.
  intros Hok. unfold callGeminiAPI, result. cbn. rewrite Hok. cbn.
  unfold aiResponseText, replyPath, orElse. reflexivity.
Qed.

Lemma reply_text_or_fallback_witness :
  result (run (FetchResponse 200
                 (BodyData
                    {| candidates :=
                         Some [ {| cand_content :=
                                     Some {| rc_parts :=
                                               Some [ {| rp_text := Some "Summary" |} ] |} |} ] |}))
            (callGeminiAPI (state scenarioB) "Summarize" true) scenarioB) =
    Return "Summary".
Proof.
  apply (reply_text_or_fallback (state scenarioB) "Summarize" true 200
           {| candidates :=
                Some [ {| cand_content :=
                            Some {| rc_parts :=
                                      Some [ {| rp_text := Some "Summary" |} ] |} |} ] |}
           scenarioB).
  reflexivity.
Defined.

(** ** Guards *)

(** C7. Invoking send while the in-flight flag is set, or with an input
    that is empty after trimming, does nothing: the handler ends at once
    with no request sent, nothing appended and the state as it was, and the
    system is left without a new suspended handler. *)
Theorem guarded_send_is_noop (sys : System) :
  truthy (trim (input (state (world sys)))) = false \/ isTyping (state (world sys)) = true ->
  exec (handleSend (state (world sys))) (world sys) = (world sys, [], Done (Return tt)) /\
  step sys PressSend = sys.
Proof.
  intros Hguard.
  assert (Hexec : exec (handleSend (state (world sys))) (world sys)
                  = (world sys, [], Done (Return tt))).
  { unfold handleSend. destruct Hguard as [-> | ->].
    - reflexivity.
    - rewrite orb_true_r. reflexivity. }
  split; [exact Hexec|].
  unfold step, launch. rewrite Hexec. apply system_eta.
Qed.

Lemma guarded_send_is_noop_witness :
  let busy :=
    {| world :=
         {| state :=
              {| messages := []; conversationHistory := []; input := "Hello";
                 isTyping := true; uploadedFiles := [docPdf "X"];
                 isProcessingFile := false; pdfJsLoaded := true |};
            clock := fun n => Z.of_nat n |};
       window_pdfjsLib := true; fetching := []; resuming := [] |} in
  step busy PressSend = busy.
Proof.
  intros busy. apply (guarded_send_is_noop busy). right. reflexivity.
Defined.

(** C8. An upload of a file whose declared media type is not
    [application/pdf] only raises the alert: the attachment store, the
    conversation log and the rest of the state are as before. *)
Theorem non_pdf_upload_is_rejected (sys : System) (file : File) :
  file_type file <> "application/pdf" ->
  exec (handleFileUpload (state (world sys)) (window_pdfjsLib sys) (Some file)) (world sys)
    = (world sys, [Alert "Please upload only PDF files"], Done (Return tt)) /\
  step sys (ChooseFile (Some file)) = sys.
Proof.
  intros Htype.
  assert (Hexec :
    exec (handleFileUpload (state (world sys)) (window_pdfjsLib sys) (Some file)) (world sys)
      = (world sys, [Alert "Please upload only PDF files"], Done (Return tt))).
  { unfold handleFileUpload.
    destruct (String.eqb_spec (file_type file) "application/pdf") as [Heq | _].
    - contradiction.
    - reflexivity. }
  split; [exact Hexec|].
  unfold step, launch. rewrite Hexec. apply system_eta.
Qed.

Lemma non_pdf_upload_is_rejected_witness :
  attachmentStore (step (mounted (fun n => Z.of_nat n) true) (ChooseFile (Some textFile)))
    = attachmentStore (mounted (fun n => Z.of_nat n) true) /\
  conversationLog (step (mounted (fun n => Z.of_nat n) true) (ChooseFile (Some textFile)))
    = conversationLog (mounted (fun n => Z.of_nat n) true).
Proof.
  destruct (non_pdf_upload_is_rejected (mounted (fun n => Z.of_nat n) true) textFile)
    as [_ Hstep].
  - discriminate.
  - rewrite Hstep. split; reflexivity.
Defined.

(** ** [callGeminiAPI] never throws *)

Lemma never_raises_returns {A : Type} (p : Prog A) (net : FetchResult) (w : World) :
  never_raises p -> exists a, result (run net p w) = Return a.
Proof.
  revert w. induction p as [a|e|f k IH|o k IH|k IH|c k IH|k IH]; intros w Hp; cbn in *.
  - exists a. reflexivity.
  - contradiction.
  - apply IH, Hp.
  - destruct (IH w Hp) as [a Ha]. exists a.
    destruct (run net k w) as [[w' os] r]. exact Ha.
  - apply IH, Hp.
  - destruct (IH net w (Hp net)) as [a Ha]. exists a.
    destruct (run net (k net) w) as [[w' os] r]. exact Ha.
  - apply IH, Hp.
Qed.

Lemma never_raises_try_catch {A : Type} (p : Prog A) (h : Error -> Prog A)
  (net : FetchResult) (w : World) :
  never_raises p -> run net (try_catch p h) w = run net p w.
Proof.
  revert w. induction p as [a|e|f k IH|o k IH|k IH|c k IH|k IH]; intros w Hp; cbn in *.
  - reflexivity.
  - contradiction.
  - apply IH, Hp.
  - rewrite (IH w Hp). reflexivity.
  - apply IH, Hp.
  - rewrite (IH net w (Hp net)). reflexivity.
  - apply IH, Hp.
Qed.

Lemma callGeminiAPI_never_raises (s : State) (userMessage : string) (incl : bool) :
  never_raises (callGeminiAPI s userMessage incl).
Proof.
  unfold callGeminiAPI. cbn. intros [|status body]; cbn; [exact I|].
  destruct (ok status); cbn; [|exact I].
  destruct body; cbn; exact I.
Qed.

Lemma handleSend_try_never_raises (s : State) (text : string) :
  never_raises (handleSend_try s text).
Proof.
  unfold handleSend_try, callGeminiAPI. cbn. intros [|status body]; cbn; [intros; exact I|].
  destruct (ok status); cbn; [|intros; exact I].
  destruct body; cbn; intros; exact I.
Qed.

(** C10. Whatever the completion service does, [callGeminiAPI] returns a
    string and does not throw. The [try] block of [handleSend] therefore
    does not throw either: it behaves the same under any [catch] block, the
    one of the source and its apology are never run, and a send always ends
    on the success path, with the returned string in an assistant message
    and the attachment store cleared. *)
Theorem callGeminiAPI_never_throws (s : State) (userMessage : string) (incl : bool)
  (net : FetchResult) (w : World) :
  never_raises (callGeminiAPI s userMessage incl) /\
  result (run net (callGeminiAPI s userMessage incl) w) = Return (replyText net) /\
  never_raises (handleSend_try s userMessage) /\
  result (run net (handleSend_try s userMessage) w) = Return tt /\
  (forall h : Error -> Prog unit,
     run net (try_catch (handleSend_try s userMessage) h) w
       = run net (handleSend_try s userMessage) w) /\
  messages (after (run net (try_catch (handleSend_try s userMessage) handleSend_catch) w)) =
    (messages (state w)
       ++ [bubble "assistant-" assistant (replyText net) (clock w 0%nat) (clock w 1%nat)])%list /\
  uploadedFiles (after (run net (try_catch (handleSend_try s userMessage) handleSend_catch) w))
    = [].
Proof.
  split; [apply callGeminiAPI_never_raises|].
  split.
  { unfold callGeminiAPI, result. cbn.
    destruct net as [|status body]; cbn; [reflexivity|].
    destruct (ok status); cbn; [|destruct body; reflexivity].
    destruct body; reflexivity. }
  split; [apply handleSend_try_never_raises|].
  split.
  { destruct (never_raises_returns (handleSend_try s userMessage) net w
                (handleSend_try_never_raises s userMessage)) as [[] Ha].
    exact Ha. }
  split.
  { intros h. apply never_raises_try_catch, handleSend_try_never_raises. }
  rewrite (never_raises_try_catch _ handleSend_catch net w
             (handleSend_try_never_raises s userMessage)).
  unfold handleSend_try, callGeminiAPI, after. cbn.
  destruct net as [|status body]; cbn; [split; reflexivity|].
  destruct (ok status); cbn; [|destruct body; split; reflexivity].
  destruct body; split; reflexivity.
Qed.

(** ** Text extraction *)

Lemma append_assoc (a b c : string) : (a ++ b) ++ c = a ++ (b ++ c).
Proof. induction a as [|x a IH]; cbn; [reflexivity | rewrite IH; reflexivity]. Qed.

Lemma append_empty_r (a : string) : a ++ "" = a.
Proof. induction a as [|x a IH]; cbn; [reflexivity | rewrite IH; reflexivity]. Qed.

Section Emits.
Context {A : Type}.

Lemma run_emits (net : FetchResult) (os : list Effect) (k : Prog A) (w : World) :
  run net (emits os k) w =
    let '(w', os', c) := run net k w in (w', (os ++ os')%list, c).
Proof.
  unfold emits; induction os as [|o os IH]; cbn.
  - destruct (run net k w) as [[w' os'] c]. reflexivity.
  - rewrite IH. destruct (run net k w) as [[w' os'] c]. reflexivity.
Qed.

Lemma exec_emits (os : list Effect) (k : Prog A) (w : World) :
  exec (emits os k) w =
    let '(w', os', st) := exec k w in (w', (os ++ os')%list, st).
Proof.
  unfold emits; induction os as [|o os IH]; cbn.
  - destruct (exec k w) as [[w' os'] st]. reflexivity.
  - rewrite IH. destruct (exec k w) as [[w' os'] st]. reflexivity.
Qed.

Lemma try_catch_emits (os : list Effect) (k : Prog A) (h : Error -> Prog A) :
  try_catch (emits os k) h = emits os (try_catch k h).
Proof. unfold emits; induction os as [|o os IH]; cbn; [reflexivity | rewrite IH; reflexivity]. Qed.

Lemma try_finally_emits (os : list Effect) (k : Prog A) (f : Prog unit) :
  try_finally (emits os k) f = emits os (try_finally k f).
Proof. unfold emits; induction os as [|o os IH]; cbn; [reflexivity | rewrite IH; reflexivity]. Qed.

Lemma bind_emits {B : Type} (os : list Effect) (k : Prog A) (f : A -> Prog B) :
  bind (emits os k) f = emits os (bind k f).
Proof. unfold emits; induction os as [|o os IH]; cbn; [reflexivity | rewrite IH; reflexivity]. Qed.
End Emits.

(** The loop asks for the pages in increasing order and, when each of them
    has text, ends with the blocks appended in that order. *)
Lemma pages_loop_all (pdf : PDFDocument) (items : nat -> list TextItem)
  (remaining i : nat) (fullText : string) :
  (forall j, i <= j < i + remaining -> getPage pdf j = PageText (items j)) ->
  pages_loop pdf remaining i fullText =
    emits (map GetPage (seq i remaining)) (Ret (fullText ++ pagesText items i remaining)).
Proof.
  revert i fullText. induction remaining as [|n IH]; intros i fullText Hpages.
  - cbn. rewrite append_empty_r. reflexivity.
  - cbn [pages_loop]. rewrite (Hpages i) by lia.
    rewrite IH by (intros j Hj; apply Hpages; lia).
    unfold pagesText. cbn [seq map fold_right emits].
    f_equal. f_equal. f_equal. rewrite append_assoc. reflexivity.
Qed.

(** It stops at the first page that fails, with an error. *)
Lemma pages_loop_first_failure (pdf : PDFDocument) (items : nat -> list TextItem)
  (remaining i k : nat) (fullText : string) :
  i <= k < i + remaining ->
  (forall j, i <= j < k -> getPage pdf j = PageText (items j)) ->
  getPage pdf k = PageFails ->
  pages_loop pdf remaining i fullText =
    emits (map GetPage (seq i (S k - i))) (Raise PdfJsError).
Proof.
  revert i fullText. induction remaining as [|n IH]; intros i fullText Hk Hbefore Hfail.
  - lia.
  - cbn [pages_loop]. destruct (Nat.eq_dec i k) as [-> | Hne].
    + rewrite Hfail. replace (S k - k) with 1 by lia. reflexivity.
    + rewrite (Hbefore i) by lia.
      rewrite (IH (S i)); [| lia | intros j Hj; apply Hbefore; lia | exact Hfail].
      replace (S k - i) with (S (S k - S i)) by lia. reflexivity.
Qed.

Lemma pages_loop_some_failure (pdf : PDFDocument) (remaining i k : nat) (fullText : string) :
  i <= k < i + remaining ->
  getPage pdf k = PageFails ->
  exists count, count <= remaining /\
    pages_loop pdf remaining i fullText =
      emits (map GetPage (seq i count)) (Raise PdfJsError).
Proof.
  revert i fullText. induction remaining as [|n IH]; intros i fullText Hk Hfail.
  - lia.
  - cbn [pages_loop]. destruct (getPage pdf i) as [|items] eqn:Hpage.
    + exists 1. split; [lia | reflexivity].
    + assert (Hne : i <> k) by (intros ->; congruence).
      destruct (IH (S i) (fullText ++ pageBlock i items) ltac:(lia) Hfail)
        as (count & Hcount & Heq).
      exists (S count). split; [lia|].
      unfold pageBlock in Heq. rewrite Heq. reflexivity.
Qed.

(** The loop is a straight-line program, whatever the pages are. *)
Lemma pages_loop_emits (pdf : PDFDocument) (remaining i : nat) (fullText : string) :
  exists os c, pages_loop pdf remaining i fullText = emits os (finish c).
Proof.
  revert i fullText. induction remaining as [|n IH]; intros i fullText.
  - exists [], (Return fullText). reflexivity.
  - cbn [pages_loop]. destruct (getPage pdf i) as [|items].
    + exists [GetPage i], (Throw PdfJsError). reflexivity.
    + destruct (IH (S i)
                  (fullText ++ "Page " ++ ofNat i ++ ":" ++ nl
                     ++ join " " (map str items) ++ nl ++ nl))
        as (os & c & Heq).
      exists (GetPage i :: os), c. rewrite Heq. reflexivity.
Qed.

(** C5. For a document whose pages 1..N all have text, extraction asks for
    the pages 1, 2, ..., N in this order and returns the concatenation, page
    after page, of ["Page i:\n"], the fragments of page [i] joined by single
    spaces, and a blank line. When some page fails, extraction ends with an
    error and no text, having asked for an initial run 1..k of the pages. *)
Theorem extraction_in_page_order
  (s : State) (file : File) (pdf : PDFDocument) (net : FetchResult) (w : World) :
  pdfJsLoaded s = true ->
  file_data file = Readable (Some pdf) ->
  (forall items : nat -> list TextItem,
     (forall i, 1 <= i <= numPages pdf -> getPage pdf i = PageText (items i)) ->
     run net (extractTextFromPDF s true file) w =
       (w, map GetPage (seq 1 (numPages pdf)),
        Return (fold_right append ""
                  (map (fun i =>
                          "Page " ++ ofNat i ++ ":" ++ nl
                            ++ join " " (map str (items i)) ++ nl ++ nl)
                       (seq 1 (numPages pdf)))))) /\
  (forall k, 1 <= k <= numPages pdf -> getPage pdf k = PageFails ->
     exists count, count <= numPages pdf /\
       run net (extractTextFromPDF s true file) w =
         (w, map GetPage (seq 1 count), Throw PdfJsError)).
Proof.
  intros Hloaded Hdata. unfold extractTextFromPDF. rewrite Hloaded, Hdata. cbn.
  split.
  - intros items Hpages.
    rewrite (pages_loop_all pdf items) by (intros j Hj; apply Hpages; lia).
    rewrite try_catch_emits, run_emits. cbn. rewrite app_nil_r. reflexivity.
  - intros k Hk Hfail.
    destruct (pages_loop_some_failure pdf (numPages pdf) 1 k "" ltac:(lia) Hfail)
      as (count & Hcount & Heq).
    exists count. split; [exact Hcount|].
    rewrite Heq, try_catch_emits, run_emits. cbn. rewrite app_nil_r. reflexivity.
Qed.

Lemma extraction_in_page_order_witness :
  run FetchRejects (extractTextFromPDF (state scenarioB) true (pdfFile twoPages)) scenarioB =
    (scenarioB, [GetPage 1; GetPage 2],
     Return ("Page 1:" ++ nl ++ "Hello world" ++ nl ++ nl
               ++ "Page 2:" ++ nl ++ "Bye" ++ nl ++ nl)) /\
  exists count, count <= 3 /\
    run FetchRejects (extractTextFromPDF (state scenarioB) true (pdfFile brokenPage)) scenarioB =
      (scenarioB, map GetPage (seq 1 count), Throw PdfJsError).
Proof.
  split.
  - destruct (extraction_in_page_order (state scenarioB) (pdfFile twoPages) twoPages
                FetchRejects scenarioB eq_refl eq_refl) as [Hall _].
    apply (Hall (getPage_items twoPages)).
    intros i Hi. destruct i as [|[|[|i]]]; cbn in *; try reflexivity; lia.
  - destruct (extraction_in_page_order (state scenarioB) (pdfFile brokenPage) brokenPage
                FetchRejects scenarioB eq_refl eq_refl) as [_ Hfail].
    apply (Hfail 2); [cbn; lia | reflexivity].
Defined.

(** ** The event loop keeps both logs append-only *)

Lemma prefix_refl {A : Type} (l : list A) : prefix l l.
Proof. exists []. symmetry. apply app_nil_r. Qed.

Lemma prefix_trans {A : Type} (l1 l2 l3 : list A) :
  prefix l1 l2 -> prefix l2 l3 -> prefix l1 l3.
Proof.
  intros [t1 ->] [t2 ->]. exists (t1 ++ t2)%list. symmetry. apply app_assoc.
Qed.

Lemma prefix_length {A : Type} (l1 l2 : list A) :
  prefix l1 l2 -> List.length l1 <= List.length l2.
Proof. intros [t ->]. rewrite length_app. lia. Qed.

Lemma Forall_remove_at {A : Type} (P : A -> Prop) (n : nat) (l : list A) :
  Forall P l -> Forall P (remove_at n l).
Proof.
  intros H. revert n. induction H as [|x l Hx Hl IH]; intros n.
  - unfold remove_at. rewrite firstn_nil. constructor.
  - destruct n as [|n].
    + exact Hl.
    + unfold remove_at. cbn. constructor; [exact Hx | apply IH].
Qed.

(** A send that passes the guard stops at the fetch, with the user's
    message appended and the flag set. *)
Lemma handleSend_starts (s : State) (w : World) :
  truthy (trim (input s)) = true ->
  isTyping s = false ->
  exists k,
    exec (handleSend s) w =
      ({| state :=
            {| messages :=
                 (messages (state w)
                    ++ [bubble "user-" user (trim (input s)) (clock w 0%nat) (clock w 1%nat)])%list;
               conversationHistory := conversationHistory (state w);
               input := "";
               isTyping := true;
               uploadedFiles := uploadedFiles (state w);
               isProcessingFile := isProcessingFile (state w);
               pdfJsLoaded := pdfJsLoaded (state w) |};
          clock := fun n => clock w (S (S n)) |},
       [Post (conversationHistory s ++ [userTurn s])%list],
       OnFetch k).
Proof.
  intros Htext Htyping. unfold handleSend. rewrite Htext, Htyping. cbn.
  eexists. reflexivity.
Qed.

(** What is left of a send, run in any later world [w] once the service
    has answered. *)
Lemma handleSend_settles (s : State) (k : FetchResult -> Prog unit)
  (net : FetchResult) (w : World) :
  sent_from s k ->
  exec (k net) w =
    ({| state :=
          {| messages :=
               (messages (state w)
                  ++ [bubble "assistant-" assistant (replyText net)
                        (clock w 0%nat) (clock w 1%nat)])%list;
             conversationHistory :=
               if succeeds net
               then (conversationHistory s ++ [userTurn s; modelTurn (replyText net)])%list
               else conversationHistory (state w);
             input := input (state w);
             isTyping := false;
             uploadedFiles := [];
             isProcessingFile := isProcessingFile (state w);
             pdfJsLoaded := pdfJsLoaded (state w) |};
        clock := fun n => clock w (S (S n)) |},
     [], Done (Return tt)).
Proof.
  intros (w0 & w1 & os & Hexec). unfold handleSend in Hexec.
  destruct (negb (truthy (trim (input s))) || isTyping s); [discriminate Hexec|].
  cbn in Hexec. injection Hexec as _ _ Hk. subst k.
  destruct net as [|status body]; cbn.
  - reflexivity.
  - destruct (ok status); cbn.
    + destruct body as [| |data]; cbn; rewrite <- ?app_assoc; reflexivity.
    + destruct body; reflexivity.
Qed.

Lemma handleFileUpload_starts (s : State) (lib : bool) (files0 : option File) (w : World) :
  exists w' os st,
    exec (handleFileUpload s lib files0) w = (w', os, st) /\
    messages (state w') = messages (state w) /\
    conversationHistory (state w') = conversationHistory (state w) /\
    isTyping (state w') = isTyping (state w) /\
    match st with
    | OnFetch _ => False
    | _ => True
    end.
Proof.
  unfold handleFileUpload. destruct files0 as [file|].
  2:{ do 3 eexists. split; [reflexivity|]. cbn. auto. }
  destruct (negb (file_type file =? "application/pdf")).
  { do 3 eexists. split; [reflexivity|]. cbn. auto. }
  destruct (negb (pdfJsLoaded s)) eqn:Hloaded.
  { do 3 eexists. split; [reflexivity|]. cbn. auto. }
  unfold extractTextFromPDF. rewrite Hloaded. cbn.
  destruct (negb lib); cbn.
  - do 3 eexists. split; [reflexivity|]. cbn. auto.
  - do 3 eexists. split; [reflexivity|]. cbn. auto.
Qed.

(** What is left of an upload runs to its end, and at most appends one
    message. *)
Lemma handleFileUpload_resumes (k : Prog unit) (w : World) :
  uploading k ->
  exists w' os c,
    exec k w = (w', os, Done c) /\
    prefix (messages (state w)) (messages (state w')) /\
    conversationHistory (state w') = conversationHistory (state w) /\
    isTyping (state w') = isTyping (state w).
Proof.
  intros (s & lib & files0 & w0 & w1 & os & Hexec). unfold handleFileUpload in Hexec.
  destruct files0 as [file|]; [|discriminate Hexec].
  destruct (negb (file_type file =? "application/pdf")); [discriminate Hexec|].
  destruct (negb (pdfJsLoaded s)) eqn:Hloaded; [discriminate Hexec|].
  unfold extractTextFromPDF in Hexec. rewrite Hloaded in Hexec.
  destruct (negb lib); cbn in Hexec; [discriminate Hexec|].
  injection Hexec as _ _ Hk. subst k.
  destruct (file_data file) as [|[pdf|]]; cbn.
  - do 3 eexists. split; [reflexivity|]. cbn. repeat split. apply prefix_refl.
  - destruct (pages_loop_emits pdf (numPages pdf) 1 "") as (es & c & Heq).
    rewrite Heq, try_catch_emits, bind_emits, try_catch_emits, try_finally_emits, exec_emits.
    destruct c as [fullText|e]; cbn.
    + do 3 eexists. split; [reflexivity|]. cbn. repeat split. eexists. reflexivity.
    + do 3 eexists. split; [reflexivity|]. cbn. repeat split. apply prefix_refl.
  - do 3 eexists. split; [reflexivity|]. cbn. repeat split. apply prefix_refl.
Qed.

Lemma step_consistent (sys : System) (e : Event) :
  consistent sys ->
  consistent (step sys e) /\
  prefix (conversationLog sys) (conversationLog (step sys e)) /\
  prefix (modelSession sys) (modelSession (step sys e)).
Proof.
  intros [Hup Hsend]. destruct e as [value| |files0|index| |n net|n]; unfold step.
  - (* Typing *)
    unfold launch, consistent, conversationLog, modelSession; cbn.
    repeat split; try apply prefix_refl; try exact Hup. exact Hsend.
  - (* PressSend *)
    destruct (truthy (trim (input (state (world sys))))) eqn:Htext;
      [destruct (isTyping (state (world sys))) eqn:Htyping|].
    2:{ destruct (handleSend_starts _ (world sys) Htext Htyping) as [k Hk].
        unfold launch. rewrite Hk.
        unfold consistent, conversationLog, modelSession; cbn.
        destruct (fetching sys) as [|k0 [|k1 rest]].
        - cbn. repeat split; try exact Hup.
          + exists (state (world sys)). split; [|reflexivity].
            exists (world sys). do 2 eexists. exact Hk.
          + eexists. reflexivity.
          + apply prefix_refl.
        - destruct Hsend as [Hbusy _]. congruence.
        - contradiction. }
    all: assert (Hnoop : exec (handleSend (state (world sys))) (world sys)
                         = (world sys, [], Done (Return tt)))
        by (unfold handleSend; rewrite ?Htext, ?Htyping; cbn; rewrite ?orb_true_r; reflexivity);
      unfold launch; rewrite Hnoop, system_eta;
      repeat split; try apply prefix_refl; try assumption;
      rewrite Htyping; exact Hsend.
  - (* ChooseFile *)
    destruct (handleFileUpload_starts (state (world sys)) (window_pdfjsLib sys) files0 (world sys))
      as (w' & os & st & Hexec & Hlog & Hsession & Htyping & Hst).
    unfold launch. rewrite Hexec.
    destruct st as [c|k|k]; [|contradiction|];
      unfold consistent, conversationLog, modelSession; cbn; rewrite Hlog, Hsession, Htyping.
    + repeat split; try apply prefix_refl; assumption.
    + repeat split; try apply prefix_refl; try assumption.
      apply Forall_app. split; [exact Hup|].
      constructor; [|constructor].
      do 6 eexists. exact Hexec.
  - (* ClickRemove *)
    unfold launch, consistent, conversationLog, modelSession; cbn.
    repeat split; try apply prefix_refl; try exact Hup. exact Hsend.
  - (* PdfJsLoads *)
    unfold launch, consistent, conversationLog, modelSession; cbn.
    repeat split; try apply prefix_refl; try exact Hup. exact Hsend.
  - (* FetchSettles *)
    destruct (fetching sys) as [|k [|k1 rest]] eqn:Hfetching; [| |contradiction].
    + destruct n; cbn.
      all: repeat split; try apply prefix_refl; try exact Hup.
      all: rewrite Hfetching; exact I.
    + destruct Hsend as (Hbusy & s & Hk & Hs).
      destruct n as [|n]; cbn.
      * unfold launch. rewrite (handleSend_settles s k net _ Hk).
        unfold consistent, conversationLog, modelSession; cbn.
        repeat split; try exact Hup.
        -- eexists. reflexivity.
        -- destruct (succeeds net).
           ++ rewrite Hs. eexists. reflexivity.
           ++ apply prefix_refl.
      * destruct n; cbn.
        all: repeat split; try apply prefix_refl; try exact Hup.
        all: rewrite Hfetching; eauto.
  - (* Resumes *)
    destruct (nth_error (resuming sys) n) as [k|] eqn:Hnth.
    2:{ repeat split; try apply prefix_refl; assumption. }
    assert (Hk : uploading k).
    { rewrite Forall_forall in Hup. apply Hup. eapply nth_error_In. exact Hnth. }
    destruct (handleFileUpload_resumes k (world sys) Hk)
      as (w' & os & c & Hexec & Hlog & Hsession & Htyping).
    unfold launch; cbn. rewrite Hexec.
    unfold consistent, conversationLog, modelSession; cbn. rewrite Hsession, Htyping.
    repeat split; try apply prefix_refl; try assumption.
    apply Forall_remove_at. exact Hup.
Qed.

Lemma mounted_consistent (clock : nat -> Z) (lib : bool) : consistent (mounted clock lib).
Proof. destruct lib; split; cbn; constructor. Qed.

Lemma steps_consistent (es : list Event) (sys : System) :
  consistent sys ->
  consistent (steps sys es) /\
  prefix (conversationLog sys) (conversationLog (steps sys es)) /\
  prefix (modelSession sys) (modelSession (steps sys es)).
Proof.
  revert sys. induction es as [|e es IH]; intros sys Hsys; cbn.
  - split; [exact Hsys|]. split; apply prefix_refl.
  - destruct (step_consistent sys e Hsys) as (Hstep & Hlog & Hsession).
    destruct (IH (step sys e) Hstep) as (Hrest & Hlog' & Hsession').
    split; [exact Hrest|].
    split; eapply prefix_trans; eassumption.
Qed.

(** C9. Along every sequence of events of the mounted component (typing,
    send, upload, removal of an attachment, and the settling of what they
    started), the conversation log only grows at its end: its state after
    any later events is its earlier state followed by the entries added, so
    its length does not decrease and no existing entry changes. The same
    holds for the model session. *)
Theorem logs_are_append_only (clock : nat -> Z) (lib : bool) (es1 es2 : list Event) :
  let before := steps (mounted clock lib) es1 in
  let later := steps before es2 in
  (exists added, conversationLog later = (conversationLog before ++ added)%list) /\
  List.length (conversationLog before) <= List.length (conversationLog later) /\
  (exists added, modelSession later = (modelSession before ++ added)%list) /\
  List.length (modelSession before) <= List.length (modelSession later).
Proof.
  intros before later.
  destruct (steps_consistent es1 (mounted clock lib) (mounted_consistent clock lib))
    as (Hbefore & _ & _).
  destruct (steps_consistent es2 before Hbefore) as (_ & Hlog & Hsession).
  split; [exact Hlog|].
  split; [apply prefix_length, Hlog|].
  split; [exact Hsession|].
  apply prefix_length, Hsession.
Qed.

(** ** Scenarios of the event loop *)

(** Scenario A: ["Hello"] is typed and sent, the service replies ["Hi!"]. *)
Example scenario_A :
  let sys := steps (mounted (fun n => Z.of_nat n) true)
               [Typing "Hello"; PressSend; FetchSettles 0 (textReply "Hi!")] in
  map (fun m => (sender m, text m)) (conversationLog sys) =
    [(assistant,
      "Hi, how can I help you today? You can also upload PDF files for me to analyze!");
     (user, "Hello"); (assistant, "Hi!")] /\
  modelSession sys =
    [ {| role := role_user; parts := [ {| part_text := "Hello" |} ] |};
      {| role := role_model; parts := [ {| part_text := "Hi!" |} ] |} ] /\
  fetching sys = [] /\
  isTyping (state (world sys)) = false.
Proof. repeat split. Qed.

(** A second press while the first send is in flight is dropped, and an
    upload that ends during the send is cleared with the rest when the
    send settles. *)
Example send_while_in_flight :
  let sys := steps (mounted (fun n => Z.of_nat n) true)
               [Typing "Hello"; PressSend; Typing "again"; PressSend;
                ChooseFile (Some (pdfFile twoPages)); Resumes 0] in
  List.length (fetching sys) = 1 /\
  map text (conversationLog sys) =
    ["Hi, how can I help you today? You can also upload PDF files for me to analyze!";
     "Hello"; "Uploaded: doc.pdf"] /\
  map name (attachmentStore sys) = ["doc.pdf"] /\
  attachmentStore (step sys (FetchSettles 0 (textReply "Hi!"))) = [].
Proof. repeat split. Qed.

(** ** Trimming and the send guard *)

Lemma trimEnd_keeps_head (c : ascii) (s : string) :
  isWhiteSpace c = false -> exists t, trimEnd (String c s) = String c t.
Proof.
  intros Hc. cbn. destruct (trimEnd s) as [|c' t'].
  - rewrite Hc. exists "". reflexivity.
  - exists (String c' t'). reflexivity.
Qed.

Lemma trimStart_cases (s : string) :
  (blank s = true /\ trimStart s = "") \/
  (blank s = false /\ exists c t, trimStart s = String c t /\ isWhiteSpace c = false).
Proof.
  induction s as [|c s IH]; cbn.
  - left. split; reflexivity.
  - destruct (isWhiteSpace c) eqn:Hc; cbn.
    + exact IH.
    + right. split; [reflexivity|]. exists c, s. split; [reflexivity | exact Hc].
Qed.

Lemma truthy_trim (s : string) : truthy (trim s) = negb (blank s).
Proof.
  unfold trim. destruct (trimStart_cases s) as [[Hb Ht] | [Hb (c & t & Ht & Hc)]];
    rewrite Hb, Ht.
  - reflexivity.
  - destruct (trimEnd_keeps_head c t Hc) as [t' ->]. reflexivity.
Qed.

Lemma trim_firstChar (s : string) (c : ascii) :
  firstChar (trim s) = Some c -> isWhiteSpace c = false.
Proof.
  unfold trim. destruct (trimStart_cases s) as [[_ Ht] | [_ (c0 & t & Ht & Hc)]]; rewrite Ht.
  - discriminate.
  - destruct (trimEnd_keeps_head c0 t Hc) as [t' ->]. cbn. intros [= <-]. exact Hc.
Qed.

Lemma trimEnd_lastChar (s : string) (c : ascii) :
  lastChar (trimEnd s) = Some c -> isWhiteSpace c = false.
Proof.
  induction s as [|c0 s IH]; cbn.
  - discriminate.
  - destruct (trimEnd s) as [|c1 t1] eqn:Ht.
    + destruct (isWhiteSpace c0) eqn:Hc0; cbn; [discriminate|].
      intros [= <-]. exact Hc0.
    + cbn [lastChar]. exact IH.
Qed.

Lemma trimEnd_cons (c : ascii) (s : string) :
  trimEnd (String c s) =
    match trimEnd s with
    | EmptyString => if isWhiteSpace c then EmptyString else String c EmptyString
    | t => String c t
    end.
Proof. reflexivity. Qed.

Lemma trimEnd_idempotent (s : string) : trimEnd (trimEnd s) = trimEnd s.
Proof.
  induction s as [|c s IH]; [reflexivity|].
  rewrite trimEnd_cons. destruct (trimEnd s) as [|c1 t1] eqn:Ht.
  - destruct (isWhiteSpace c) eqn:Hc; [reflexivity|]. cbn. rewrite Hc. reflexivity.
  - rewrite trimEnd_cons, IH. reflexivity.
Qed.

Lemma trim_idempotent (s : string) : trim (trim s) = trim s.
Proof.
  unfold trim. destruct (trimStart_cases s) as [[_ Ht] | [_ (c & t & Ht & Hc)]]; rewrite Ht.
  - reflexivity.
  - destruct (trimEnd_keeps_head c t Hc) as [t' Heq].
    assert (Hstart : trimStart (trimEnd (String c t)) = trimEnd (String c t)).
    { rewrite Heq. cbn. rewrite Hc. reflexivity. }
    rewrite Hstart. apply trimEnd_idempotent.
Qed.

Lemma send_effects (net : FetchResult) (w : World) :
  effects (run net (handleSend (state w)) w) =
    if negb (blank (input (state w))) && negb (isTyping (state w))
    then [Post (conversationHistory (state w) ++ [userTurn (state w)])%list]
    else [].
Proof.
  destruct (blank (input (state w))) eqn:Hblank; cbn [negb andb].
  - unfold handleSend. rewrite truthy_trim, Hblank. reflexivity.
  - destruct (isTyping (state w)) eqn:Htyping; cbn [negb].
    + unfold handleSend. rewrite Htyping, orb_true_r. reflexivity.
    + rewrite run_handleSend; [reflexivity | | exact Htyping].
      rewrite truthy_trim, Hblank. reflexivity.
Qed.

(** X1. A send posts a request exactly when the input holds a character
    that is not white space and no send is in flight; it then posts one
    request, whatever the service answers, whose contents are the model
    session followed by the composed user turn. Otherwise nothing is
    posted. *)
Theorem one_request_iff_text_and_idle (net : FetchResult) (w : World) :
  effects (send net w) =
    if negb (blank (input (state w))) && negb (isTyping (state w))
    then [Post (conversationHistory (state w) ++ [userTurn (state w)])%list]
    else [].
Proof. unfold send. apply send_effects. Qed.

(** X2. The text of the user's message in the log, which is also the
    question of the composed turn, is the input without the white space
    around it: it neither starts nor ends with white space, and trimming it
    again changes nothing. *)
Theorem user_message_is_trimmed (s : State) (w : World) :
  truthy (trim (input s)) = true ->
  isTyping s = false ->
  exists m,
    messages (after (exec (handleSend s) w)) = (messages (state w) ++ [m])%list /\
    sender m = user /\
    text m = trim (input s) /\
    trim (text m) = text m /\
    (forall c, firstChar (text m) = Some c -> isWhiteSpace c = false) /\
    (forall c, lastChar (text m) = Some c -> isWhiteSpace c = false).
Proof.
  intros Htext Htyping.
  exists (bubble "user-" user (trim (input s)) (clock w 0%nat) (clock w 1%nat)).
  split.
  { unfold handleSend. rewrite Htext, Htyping. reflexivity. }
  cbn. repeat split.
  - apply trim_idempotent.
  - apply trim_firstChar.
  - intros c. unfold trim. apply trimEnd_lastChar.
Qed.

Lemma user_message_is_trimmed_witness :
  exists m,
    messages (after (exec (handleSend (state (typed "  Hello there  " scenarioB)))
                       (typed "  Hello there  " scenarioB)))
      = [m] /\
    text m = "Hello there".
Proof.
  destruct (user_message_is_trimmed (state (typed "  Hello there  " scenarioB))
              (typed "  Hello there  " scenarioB) eq_refl eq_refl)
    as (m & Hlog & _ & Htext & _).
  exists m. split; [exact Hlog | exact Htext].
Defined.

(** X3. The send button is disabled exactly in the states in which
    [handleSend] returns at its guard without doing anything. *)
Theorem send_button_matches_guard (s : State) (w : World) :
  sendDisabled s = true <-> exec (handleSend s) w = (w, [], Done (Return tt)).
Proof.
  unfold sendDisabled. split.
  - intros H. unfold handleSend. rewrite H. reflexivity.
  - intros H. destruct (negb (truthy (trim (input s))) || isTyping s) eqn:Hguard;
      [reflexivity|].
    apply orb_false_elim in Hguard as [Htext Htyping].
    apply negb_false_iff in Htext.
    destruct (handleSend_starts s w Htext Htyping) as [k Hk].
    rewrite Hk in H. discriminate H.
Qed.

(** X4. A key press cancels the default action of the key exactly when the
    key is Enter without Shift, and posts a request exactly when, besides,
    the input holds a character that is not white space and no send is in
    flight. Any other key, and Enter with Shift, leaves the world as it
    is. *)
Theorem key_press_posts_iff (e : KeyboardEvent) (net : FetchResult) (w : World) :
  fst (handleKeyDown e (state w)) = (key e =? "Enter") && negb (shiftKey e) /\
  effects (run net (snd (handleKeyDown e (state w))) w) =
    (if (key e =? "Enter") && negb (shiftKey e)
        && negb (blank (input (state w))) && negb (isTyping (state w))
     then [Post (conversationHistory (state w) ++ [userTurn (state w)])%list]
     else []) /\
  ((key e =? "Enter") && negb (shiftKey e) = false ->
   run net (snd (handleKeyDown e (state w))) w = (w, [], Return tt)).
Proof.
  unfold handleKeyDown.
  destruct ((key e =? "Enter") && negb (shiftKey e)) eqn:Hplain; cbn [fst snd].
  - split; [reflexivity|]. split; [|discriminate].
    rewrite send_effects. cbn [andb].
    destruct (negb (blank (input (state w)))); reflexivity.
  - repeat split.
Qed.

Lemma key_press_posts_iff_witness :
  run FetchRejects
    (snd (handleKeyDown {| key := "Enter"; shiftKey := true |} (state scenarioB))) scenarioB
    = (scenarioB, [], Return tt) /\
  run FetchRejects
    (snd (handleKeyDown {| key := "a"; shiftKey := false |} (state scenarioB))) scenarioB
    = (scenarioB, [], Return tt).
Proof.
  split.
  - apply (key_press_posts_iff {| key := "Enter"; shiftKey := true |} FetchRejects scenarioB).
    reflexivity.
  - apply (key_press_posts_iff {| key := "a"; shiftKey := false |} FetchRejects scenarioB).
    reflexivity.
Defined.

(** ** Removing and adding attachments *)

Lemma filteri_keeps_all {A : Type} (index start : nat) (l : list A) :
  index < start ->
  filteri (fun _ i => negb (i =? index)%nat) start l = l.
Proof.
  revert start. induction l as [|x l IH]; intros start Hlt; cbn; [reflexivity|].
  destruct (Nat.eqb_spec start index) as [Heq | _]; [lia|].
  cbn. rewrite IH by lia. reflexivity.
Qed.

Lemma filteri_remove_at {A : Type} (index start : nat) (l : list A) :
  start <= index ->
  filteri (fun _ i => negb (i =? index)%nat) start l = remove_at (index - start) l.
Proof.
  revert start. induction l as [|x l IH]; intros start Hle.
  - unfold remove_at. rewrite firstn_nil. reflexivity.
  - cbn [filteri]. destruct (Nat.eqb_spec start index) as [-> | Hne]; cbn [negb].
    + rewrite filteri_keeps_all by lia. rewrite Nat.sub_diag. reflexivity.
    + rewrite IH by lia.
      replace (index - start) with (S (index - S start)) by lia. reflexivity.
Qed.

(** X5. Removing the attachment at [index] takes exactly that entry out of
    the store and keeps the others in their order; an index past the end
    removes nothing. The log, the session and the rest of the state are not
    touched. *)
Theorem removeFile_removes_that_entry (index : nat) (w : World) :
  exec (removeFile index) w =
    ({| state :=
          {| messages := messages (state w);
             conversationHistory := conversationHistory (state w);
             input := input (state w);
             isTyping := isTyping (state w);
             uploadedFiles :=
               (firstn index (uploadedFiles (state w))
                  ++ skipn (S index) (uploadedFiles (state w)))%list;
             isProcessingFile := isProcessingFile (state w);
             pdfJsLoaded := pdfJsLoaded (state w) |};
        clock := clock w |},
     [], Done (Return tt)) /\
  (List.length (uploadedFiles (state w)) <= index ->
   uploadedFiles (after (exec (removeFile index) w)) = uploadedFiles (state w)) /\
  (index < List.length (uploadedFiles (state w)) ->
   S (List.length (uploadedFiles (after (exec (removeFile index) w))))
     = List.length (uploadedFiles (state w))).
Proof.
  assert (Hstore : uploadedFiles (after (exec (removeFile index) w))
                   = (firstn index (uploadedFiles (state w))
                        ++ skipn (S index) (uploadedFiles (state w)))%list).
  { unfold removeFile, after. cbn.
    rewrite (filteri_remove_at index 0) by lia. rewrite Nat.sub_0_r. reflexivity. }
  split; [|split].
  - unfold removeFile. cbn. unfold after, removeFile in Hstore. cbn in Hstore.
    rewrite Hstore. reflexivity.
  - intros Hlen. rewrite Hstore.
    rewrite firstn_all2 by exact Hlen. rewrite skipn_all2 by lia. apply app_nil_r.
  - intros Hlen. rewrite Hstore, length_app, length_firstn, length_skipn. lia.
Qed.

Lemma removeFile_removes_that_entry_witness :
  map name
    (uploadedFiles
       (after (exec (removeFile 1)
                 {| state :=
                      {| messages := []; conversationHistory := []; input := "";
                         isTyping := false;
                         uploadedFiles :=
                           [ {| name := "a.pdf"; content := "A" |};
                             {| name := "b.pdf"; content := "B" |};
                             {| name := "c.pdf"; content := "C" |} ];
                         isProcessingFile := false; pdfJsLoaded := true |};
                    clock := fun n => Z.of_nat n |})))
    = ["a.pdf"; "c.pdf"].
Proof.
  pose proof (removeFile_removes_that_entry 1
    {| state :=
         {| messages := []; conversationHistory := []; input := "";
            isTyping := false;
            uploadedFiles :=
              [ {| name := "a.pdf"; content := "A" |};
                {| name := "b.pdf"; content := "B" |};
                {| name := "c.pdf"; content := "C" |} ];
            isProcessingFile := false; pdfJsLoaded := true |};
       clock := fun n => Z.of_nat n |}) as [Hexec _].
  rewrite Hexec. reflexivity.
Defined.

Lemma run_upload_ok (s : State) (file : File) (pdf : PDFDocument)
  (items : nat -> list TextItem) (net : FetchResult) (w : World) :
  file_type file = "application/pdf" ->
  pdfJsLoaded s = true ->
  file_data file = Readable (Some pdf) ->
  (forall i, 1 <= i <= numPages pdf -> getPage pdf i = PageText (items i)) ->
  run net (handleFileUpload s true (Some file)) w =
    ({| state :=
          {| messages :=
               (messages (state w)
                  ++ [uploadMessage file (clock w 0%nat) (clock w 1%nat)])%list;
             conversationHistory := conversationHistory (state w);
             input := input (state w);
             isTyping := isTyping (state w);
             uploadedFiles :=
               (uploadedFiles (state w)
                  ++ [attachmentOf file (pagesText items 1 (numPages pdf))])%list;
             isProcessingFile := false;
             pdfJsLoaded := pdfJsLoaded (state w) |};
        clock := fun n => clock w (S (S n)) |},
     map GetPage (seq 1 (numPages pdf)),
     Return tt).
Proof.
  intros Htype Hloaded Hdata Hpages.
  unfold handleFileUpload, extractTextFromPDF. rewrite Htype, Hloaded, Hdata. cbn.
  rewrite (pages_loop_all pdf items) by (intros j Hj; apply Hpages; lia).
  rewrite try_catch_emits, bind_emits, try_catch_emits, try_finally_emits, run_emits.
  cbn. rewrite app_nil_r. reflexivity.
Qed.

(** X6. An upload of a PDF whose pages all have text, once PDF.js is
    loaded, adds one attachment at the end of the store, named after the
    file and holding the extracted text of the pages in order, and one
    message ["Uploaded: <name>"] flagged as an attachment at the end of the
    log; the session is untouched, no alert is raised and the processing
    flag is released. *)
Theorem upload_adds_attachment_and_message
  (file : File) (pdf : PDFDocument) (items : nat -> list TextItem) (w : World) :
  file_type file = "application/pdf" ->
  pdfJsLoaded (state w) = true ->
  file_data file = Readable (Some pdf) ->
  (forall i, 1 <= i <= numPages pdf -> getPage pdf i = PageText (items i)) ->
  uploadedFiles (after (upload true (Some file) w)) =
    (uploadedFiles (state w)
       ++ [ {| name := file_name file;
               content :=
                 fold_right append ""
                   (map (fun i => pageBlock i (items i)) (seq 1 (numPages pdf))) |} ])%list /\
  messages (after (upload true (Some file) w)) =
    (messages (state w)
       ++ [ {| id := "file-" ++ ofZ (clock w 0%nat); sender := user;
               text := "Uploaded: " ++ file_name file; timestamp := clock w 1%nat;
               hasAttachment := Some true;
               attachmentName := Some (file_name file) |} ])%list /\
  conversationHistory (after (upload true (Some file) w)) = conversationHistory (state w) /\
  isProcessingFile (after (upload true (Some file) w)) = false /\
  effects (upload true (Some file) w) = map GetPage (seq 1 (numPages pdf)).
Proof.
  intros Htype Hloaded Hdata Hpages. unfold upload.
  rewrite (run_upload_ok _ file pdf items _ w Htype Hloaded Hdata Hpages).
  repeat split.
Qed.

Lemma upload_adds_attachment_and_message_witness :
  uploadedFiles (after (upload true (Some (pdfFile twoPages)) scenarioB)) =
    [ docPdf "X";
      {| name := "doc.pdf";
         content := "Page 1:" ++ nl ++ "Hello world" ++ nl ++ nl
                      ++ "Page 2:" ++ nl ++ "Bye" ++ nl ++ nl |} ].
Proof.
  destruct (upload_adds_attachment_and_message (pdfFile twoPages) twoPages
              (getPage_items twoPages) scenarioB eq_refl eq_refl eq_refl) as [Hstore _].
  - intros i Hi. destruct i as [|[|[|i]]]; cbn in *; try reflexivity; lia.
  - exact Hstore.
Defined.

Lemma run_upload_fails (s : State) (lib : bool) (file : File) (net : FetchResult) (w : World) :
  file_type file = "application/pdf" ->
  pdfJsLoaded s = true ->
  extractionFails lib file ->
  exists pages,
    run net (handleFileUpload s lib (Some file)) w =
      ({| state :=
            {| messages := messages (state w);
               conversationHistory := conversationHistory (state w);
               input := input (state w);
               isTyping := isTyping (state w);
               uploadedFiles := uploadedFiles (state w);
               isProcessingFile := false;
               pdfJsLoaded := pdfJsLoaded (state w) |};
          clock := clock w |},
       (map GetPage pages ++ [Alert "Failed to process PDF file. Please try again."])%list,
       Return tt).
Proof.
  intros Htype Hloaded Hfails.
  unfold handleFileUpload, extractTextFromPDF. rewrite Htype, Hloaded. cbn.
  destruct lib; cbn.
  2:{ exists []. reflexivity. }
  destruct Hfails as [Hlib | [Hdata | [Hdata | (pdf & k & Hdata & Hk & Hpage)]]].
  - discriminate Hlib.
  - rewrite Hdata. exists []. reflexivity.
  - rewrite Hdata. exists []. reflexivity.
  - rewrite Hdata. cbn.
    destruct (pages_loop_some_failure pdf (numPages pdf) 1 k "" ltac:(lia) Hpage)
      as (count & _ & Heq).
    rewrite Heq, try_catch_emits, bind_emits, try_catch_emits, try_finally_emits, run_emits.
    exists (seq 1 count). reflexivity.
Qed.

(** X7. When extraction fails (the script is missing, the file cannot be
    read, the document does not open, or a page fails), the upload adds no
    attachment and no message: store, log and session are as before, the
    user gets the alert ["Failed to process PDF file. Please try again."]
    after the page requests made so far, and the processing flag is
    released. *)
Theorem failed_upload_adds_nothing (lib : bool) (file : File) (w : World) :
  file_type file = "application/pdf" ->
  pdfJsLoaded (state w) = true ->
  extractionFails lib file ->
  uploadedFiles (after (upload lib (Some file) w)) = uploadedFiles (state w) /\
  messages (after (upload lib (Some file) w)) = messages (state w) /\
  conversationHistory (after (upload lib (Some file) w)) = conversationHistory (state w) /\
  isProcessingFile (after (upload lib (Some file) w)) = false /\
  result (upload lib (Some file) w) = Return tt /\
  exists pages,
    effects (upload lib (Some file) w) =
      (map GetPage pages ++ [Alert "Failed to process PDF file. Please try again."])%list.
Proof.
  intros Htype Hloaded Hfails. unfold upload.
  destruct (run_upload_fails (state w) lib file FetchRejects w Htype Hloaded Hfails)
    as [pages Hrun].
  rewrite Hrun. repeat split. exists pages. reflexivity.
Qed.

Lemma failed_upload_adds_nothing_witness :
  uploadedFiles (after (upload true (Some (pdfFile brokenPage)) scenarioB)) = [docPdf "X"] /\
  messages (after (upload true (Some (pdfFile brokenPage)) scenarioB)) = [].
Proof.
  destruct (failed_upload_adds_nothing true (pdfFile brokenPage) scenarioB eq_refl eq_refl)
    as (Hstore & Hlog & _).
  - right. right. right. exists brokenPage, 2. repeat split; cbn; lia.
  - split; [exact Hstore | exact Hlog].
Defined.

(** ** Exchanges *)

(** X8. A send that the service answers with a success status and a body
    holding an object records the exchange in both logs: the conversation
    log gains the user's trimmed text and the reply, the model session
    gains the composed user turn and a model turn with the same reply. The
    reply is the text at the fixed path, or the fallback when that text is
    missing or empty. The input box is emptied and the flag released. *)
Theorem successful_send_records_exchange (status : Z) (data : ResponseData) (w : World) :
  truthy (trim (input (state w))) = true ->
  isTyping (state w) = false ->
  ok status = true ->
  let reply :=
    match replyPath data with
    | Some t => if truthy t then t else "Sorry, I could not generate a response."
    | None => "Sorry, I could not generate a response."
    end in
  let r := send (FetchResponse status (BodyData data)) w in
  messages (after r) =
    (messages (state w)
       ++ [bubble "user-" user (trim (input (state w))) (clock w 0%nat) (clock w 1%nat);
           bubble "assistant-" assistant reply (clock w 2%nat) (clock w 3%nat)])%list /\
  conversationHistory (after r) =
    (conversationHistory (state w) ++ [userTurn (state w); modelTurn reply])%list /\
  input (after r) = "" /\
  isTyping (after r) = false.
Proof.
  intros Htext Htyping Hok reply r. subst r. unfold send.
  rewrite (run_handleSend _ w _ Htext Htyping). unfold after. cbn. rewrite Hok.
  repeat split.
Qed.

Lemma successful_send_records_exchange_witness :
  map (fun m => (sender m, text m))
    (messages (after (send (textReply "Summary") scenarioB)))
    = [(user, "Summarize"); (assistant, "Summary")] /\
  map role (conversationHistory (after (send (textReply "Summary") scenarioB)))
    = [role_user; role_model].
Proof.
  destruct (successful_send_records_exchange 200
              {| candidates :=
                   Some [ {| cand_content :=
                               Some {| rc_parts :=
                                         Some [ {| rp_text := Some "Summary" |} ] |} |} ] |}
              scenarioB eq_refl eq_refl eq_refl) as (Hlog & Hsession & _).
  unfold textReply. rewrite Hlog, Hsession. split; reflexivity.
Defined.

(** X9. Upload, then type, then send, starting from an empty store: the
    request carries, after the session, one user turn whose text is the
    header, the name and the extracted text of the uploaded file, and the
    trimmed question. *)
Theorem uploaded_text_reaches_the_request
  (file : File) (pdf : PDFDocument) (items : nat -> list TextItem)
  (value : string) (net : FetchResult) (w : World) :
  file_type file = "application/pdf" ->
  pdfJsLoaded (state w) = true ->
  file_data file = Readable (Some pdf) ->
  (forall i, 1 <= i <= numPages pdf -> getPage pdf i = PageText (items i)) ->
  uploadedFiles (state w) = [] ->
  isTyping (state w) = false ->
  truthy (trim value) = true ->
  effects (send net (typed value (fst (fst (upload true (Some file) w))))) =
    [Post
       (conversationHistory (state w)
          ++ [ {| role := role_user;
                  parts :=
                    [ {| part_text :=
                           "Context from uploaded files:" ++ nl
                             ++ "Content from " ++ file_name file ++ ":" ++ nl
                             ++ pagesText items 1 (numPages pdf)
                             ++ nl ++ nl ++ "User question: " ++ trim value |} ] |} ])%list].
Proof.
  intros Htype Hloaded Hdata Hpages Hstore Htyping Hvalue.
  unfold upload. rewrite (run_upload_ok _ file pdf items _ w Htype Hloaded Hdata Hpages).
  unfold typed, send. cbn. rewrite run_handleSend; [| exact Hvalue | exact Htyping].
  unfold effects, userTurn. cbn. rewrite Hstore. cbn.
  rewrite !append_assoc. reflexivity.
Qed.

Lemma uploaded_text_reaches_the_request_witness :
  effects (send FetchRejects
             (typed " What is it? "
                (fst (fst (upload true (Some (pdfFile twoPages))
                             {| state := useState_loaded; clock := fun n => Z.of_nat n |}))))) =
    [Post
       [ {| role := role_user;
            parts :=
              [ {| part_text :=
                     "Context from uploaded files:" ++ nl
                       ++ "Content from doc.pdf:" ++ nl
                       ++ "Page 1:" ++ nl ++ "Hello world" ++ nl ++ nl
                       ++ "Page 2:" ++ nl ++ "Bye" ++ nl ++ nl
                       ++ nl ++ nl ++ "User question: What is it?" |} ] |} ]].
Proof.
  apply (uploaded_text_reaches_the_request (pdfFile twoPages) twoPages
           (getPage_items twoPages) " What is it? " FetchRejects
           {| state := useState_loaded; clock := fun n => Z.of_nat n |});
    try reflexivity.
  intros i Hi. destruct i as [|[|[|i]]]; cbn in *; try reflexivity; lia.
Defined.

(** X10. Removing the attachment that an upload has just added, at the last
    index of the store, gives back the store as it was before the
    upload. *)
Theorem upload_then_remove_restores_store
  (file : File) (pdf : PDFDocument) (items : nat -> list TextItem) (w : World) :
  file_type file = "application/pdf" ->
  pdfJsLoaded (state w) = true ->
  file_data file = Readable (Some pdf) ->
  (forall i, 1 <= i <= numPages pdf -> getPage pdf i = PageText (items i)) ->
  uploadedFiles
    (state (removed (List.length (uploadedFiles (state w)))
              (fst (fst (upload true (Some file) w)))))
    = uploadedFiles (state w).
Proof.
  intros Htype Hloaded Hdata Hpages.
  unfold upload. rewrite (run_upload_ok _ file pdf items _ w Htype Hloaded Hdata Hpages).
  unfold removed, removeFile. cbn.
  rewrite (filteri_remove_at _ 0) by lia. rewrite Nat.sub_0_r. unfold remove_at.
  rewrite firstn_app, firstn_all, Nat.sub_diag, firstn_0, app_nil_r.
  rewrite skipn_all2 by (rewrite length_app; cbn; lia).
  apply app_nil_r.
Qed.

Lemma upload_then_remove_restores_store_witness :
  uploadedFiles
    (state (removed 1 (fst (fst (upload true (Some (pdfFile twoPages)) scenarioB)))))
    = [docPdf "X"].
Proof.
  apply (upload_then_remove_restores_store (pdfFile twoPages) twoPages
           (getPage_items twoPages) scenarioB); try reflexivity.
  intros i Hi. destruct i as [|[|[|i]]]; cbn in *; try reflexivity; lia.
Defined.

(** ** Handlers suspended at an await *)

(** X11. A send that passes the guard posts its request and is suspended
    with the flag set. When the answer arrives, in whatever state the
    component is by then, what is left of the send appends the assistant
    message to the log as it is then, empties the attachment store as it is
    then (files uploaded in the meantime included, though they were not
    part of the request), releases the flag, and, on success, sets the
    session to the session of the render it started from followed by the
    two new turns. *)
Theorem send_settles_on_later_state (s : State) :
  truthy (trim (input s)) = true ->
  isTyping s = false ->
  (forall w0,
     exec (handleSend s) w0 =
       ({| state :=
             {| messages :=
                  (messages (state w0)
                     ++ [bubble "user-" user (trim (input s))
                           (clock w0 0%nat) (clock w0 1%nat)])%list;
                conversationHistory := conversationHistory (state w0);
                input := "";
                isTyping := true;
                uploadedFiles := uploadedFiles (state w0);
                isProcessingFile := isProcessingFile (state w0);
                pdfJsLoaded := pdfJsLoaded (state w0) |};
           clock := fun n => clock w0 (S (S n)) |},
        [Post (conversationHistory s ++ [userTurn s])%list],
        OnFetch (sendRest s))) /\
  (forall net w,
     exec (sendRest s net) w =
       ({| state :=
             {| messages :=
                  (messages (state w)
                     ++ [bubble "assistant-" assistant (replyText net)
                           (clock w 0%nat) (clock w 1%nat)])%list;
                conversationHistory :=
                  if succeeds net
                  then (conversationHistory s ++ [userTurn s; modelTurn (replyText net)])%list
                  else conversationHistory (state w);
                input := input (state w);
                isTyping := false;
                uploadedFiles := [];
                isProcessingFile := isProcessingFile (state w);
                pdfJsLoaded := pdfJsLoaded (state w) |};
           clock := fun n => clock w (S (S n)) |},
        [], Done (Return tt))).
Proof.
  intros Htext Htyping.
  assert (Hstart : forall w0, exists w1 os, exec (handleSend s) w0 = (w1, os, OnFetch (sendRest s))).
  { intros w0. unfold sendRest, handleSend. rewrite Htext, Htyping. cbn.
    do 2 eexists. reflexivity. }
  split.
  - intros w0. destruct (handleSend_starts s w0 Htext Htyping) as [k Hk].
    destruct (Hstart w0) as (w1 & os & Hrest). rewrite Hk in Hrest.
    injection Hrest as _ _ Heq. rewrite <- Heq. exact Hk.
  - intros net w. apply handleSend_settles.
    destruct (Hstart w) as (w1 & os & Hrest). exists w, w1, os. exact Hrest.
Qed.

Lemma send_settles_on_later_state_witness :
  uploadedFiles
    (after (exec (sendRest useState_hello (textReply "Hi!"))
              {| state :=
                   {| messages := []; conversationHistory := []; input := "";
                      isTyping := true;
                      uploadedFiles := [docPdf "X"; docPdf "Y"];
                      isProcessingFile := false; pdfJsLoaded := true |};
                 clock := fun n => Z.of_nat n |})) = [].
Proof.
  destruct (send_settles_on_later_state useState_hello eq_refl eq_refl) as [_ Hrest].
  rewrite Hrest. reflexivity.
Defined.

(** X12. An upload that passes the guards sets the processing flag and is
    suspended while the file is read. When extraction ends with the text of
    all pages, in whatever state the component is by then, what is left of
    the upload appends the attachment to the store as it is then, and the
    message to the log as it is then; attachments added or removed in the
    meantime are respected. *)
Theorem upload_lands_on_later_state
  (s : State) (file : File) (pdf : PDFDocument) (items : nat -> list TextItem) :
  file_type file = "application/pdf" ->
  pdfJsLoaded s = true ->
  file_data file = Readable (Some pdf) ->
  (forall i, 1 <= i <= numPages pdf -> getPage pdf i = PageText (items i)) ->
  (forall w0,
     exec (handleFileUpload s true (Some file)) w0 =
       ({| state :=
             {| messages := messages (state w0);
                conversationHistory := conversationHistory (state w0);
                input := input (state w0);
                isTyping := isTyping (state w0);
                uploadedFiles := uploadedFiles (state w0);
                isProcessingFile := true;
                pdfJsLoaded := pdfJsLoaded (state w0) |};
           clock := clock w0 |},
        [], OnYield (uploadRest s true file))) /\
  (forall w,
     exec (uploadRest s true file) w =
       ({| state :=
             {| messages :=
                  (messages (state w)
                     ++ [uploadMessage file (clock w 0%nat) (clock w 1%nat)])%list;
                conversationHistory := conversationHistory (state w);
                input := input (state w);
                isTyping := isTyping (state w);
                uploadedFiles :=
                  (uploadedFiles (state w)
                     ++ [attachmentOf file (pagesText items 1 (numPages pdf))])%list;
                isProcessingFile := false;
                pdfJsLoaded := pdfJsLoaded (state w) |};
           clock := fun n => clock w (S (S n)) |},
        map GetPage (seq 1 (numPages pdf)), Done (Return tt))).
Proof.
  intros Htype Hloaded Hdata Hpages. split.
  - intros w0. unfold uploadRest, handleFileUpload, extractTextFromPDF.
    rewrite Htype, Hloaded. reflexivity.
  - intros w. unfold uploadRest, handleFileUpload, extractTextFromPDF.
    rewrite Htype, Hloaded, Hdata. cbn.
    rewrite (pages_loop_all pdf items) by (intros j Hj; apply Hpages; lia).
    rewrite try_catch_emits, bind_emits, try_catch_emits, try_finally_emits, exec_emits.
    cbn. rewrite app_nil_r. reflexivity.
Qed.

Lemma upload_lands_on_later_state_witness :
  map name
    (uploadedFiles
       (after (exec (uploadRest useState_loaded true (pdfFile twoPages)) scenarioB)))
    = ["doc.pdf"; "doc.pdf"] /\
  map text (messages (after (exec (uploadRest useState_loaded true (pdfFile twoPages)) scenarioB)))
    = ["Uploaded: doc.pdf"].
Proof.
  destruct (upload_lands_on_later_state useState_loaded (pdfFile twoPages) twoPages
              (getPage_items twoPages) eq_refl eq_refl eq_refl) as [_ Hrest].
  - intros i Hi. destruct i as [|[|[|i]]]; cbn in *; try reflexivity; lia.
  - rewrite Hrest. split; reflexivity.
Defined.

(** ** Invariants of the event loop *)

Lemma exchanges_app_pair (u m : GeminiContent) (h : list GeminiContent) :
  role u = role_user -> role m = role_model ->
  exchanges h = true -> exchanges (h ++ [u; m]) = true.
Proof.
  intros Hu Hm.
  assert (H : forall n (l : list GeminiContent),
             List.length l <= n -> exchanges l = true -> exchanges (l ++ [u; m]) = true).
  { induction n as [|n IH]; intros l Hlen Hl.
    - destruct l; [|cbn in Hlen; lia]. cbn. rewrite Hu, Hm. reflexivity.
    - destruct l as [|a [|b rest]].
      + cbn. rewrite Hu, Hm. reflexivity.
      + cbn in Hl. destruct (role a); discriminate Hl.
      + cbn in Hl |- *. destruct (role a); [|discriminate Hl].
        destruct (role b); [discriminate Hl|].
        apply IH; [cbn in Hlen; lia | exact Hl]. }
  intros Hh. apply (H (List.length h)); [lia | exact Hh].
Qed.

(** What an event does to the sends in flight, the flag and the session. *)
Lemma step_send_shape (sys : System) (e : Event) :
  consistent sys ->
  (fetching (step sys e) = fetching sys /\
   isTyping (state (world (step sys e))) = isTyping (state (world sys)) /\
   modelSession (step sys e) = modelSession sys) \/
  (fetching sys = [] /\
   (exists k, fetching (step sys e) = [k]) /\
   isTyping (state (world (step sys e))) = true /\
   modelSession (step sys e) = modelSession sys) \/
  ((exists k, fetching sys = [k]) /\
   fetching (step sys e) = [] /\
   isTyping (state (world (step sys e))) = false /\
   (modelSession (step sys e) = modelSession sys \/
    exists u m, role u = role_user /\ role m = role_model /\
      modelSession (step sys e) = (modelSession sys ++ [u; m])%list)).
Proof.
  intros [Hup Hsend]. destruct e as [value| |files0|index| |n net|n]; unfold step.
  - left. repeat split.
  - destruct (truthy (trim (input (state (world sys))))) eqn:Htext;
      [destruct (isTyping (state (world sys))) eqn:Htyping|].
    2:{ destruct (handleSend_starts _ (world sys) Htext Htyping) as [k Hk].
        right. left. unfold launch. rewrite Hk. unfold modelSession. cbn.
        destruct (fetching sys) as [|k0 [|k1 rest]].
        - repeat split. exists k. reflexivity.
        - destruct Hsend as [Hbusy _]. congruence.
        - contradiction. }
    all: assert (Hnoop : exec (handleSend (state (world sys))) (world sys)
                         = (world sys, [], Done (Return tt)))
        by (unfold handleSend; rewrite ?Htext, ?Htyping; cbn; rewrite ?orb_true_r; reflexivity);
      left; unfold launch; rewrite Hnoop, system_eta; rewrite ?Htyping; repeat split.
  - destruct (handleFileUpload_starts (state (world sys)) (window_pdfjsLib sys) files0 (world sys))
      as (w' & os & st & Hexec & Hlog & Hsession & Htyping & Hst).
    left. unfold launch. rewrite Hexec.
    destruct st as [c|k|k]; [|contradiction|]; unfold modelSession; cbn;
      rewrite Hsession, Htyping; repeat split.
  - left. repeat split.
  - left. repeat split.
  - destruct (fetching sys) as [|k [|k1 rest]] eqn:Hfetching; [| |contradiction].
    + left. destruct n; cbn; rewrite Hfetching; repeat split.
    + destruct Hsend as (Hbusy & s & Hk & Hs).
      destruct n as [|n]; cbn.
      * right. right. unfold launch. rewrite (handleSend_settles s k net _ Hk).
        unfold modelSession. cbn. repeat split; [exists k; reflexivity|].
        destruct (succeeds net); [right | left; reflexivity].
        exists (userTurn s), (modelTurn (replyText net)). rewrite Hs. repeat split.
      * left. destruct n; cbn; rewrite Hfetching; repeat split.
  - destruct (nth_error (resuming sys) n) as [k|] eqn:Hnth.
    2:{ left. repeat split. }
    assert (Hk : uploading k).
    { rewrite Forall_forall in Hup. apply Hup. eapply nth_error_In. exact Hnth. }
    destruct (handleFileUpload_resumes k (world sys) Hk)
      as (w' & os & c & Hexec & Hlog & Hsession & Htyping).
    left. unfold launch; cbn. rewrite Hexec. unfold modelSession. cbn.
    rewrite Hsession, Htyping. repeat split.
Qed.

Lemma steps_send_invariant (es : list Event) (sys : System) :
  consistent sys ->
  (fetching sys = [] -> isTyping (state (world sys)) = false) ->
  exchanges (modelSession sys) = true ->
  consistent (steps sys es) /\
  (fetching (steps sys es) = [] -> isTyping (state (world (steps sys es))) = false) /\
  exchanges (modelSession (steps sys es)) = true.
Proof.
  revert sys. induction es as [|e es IH]; intros sys Hsys Hidle Hex; cbn.
  - split; [exact Hsys|]. split; assumption.
  - destruct (step_consistent sys e Hsys) as (Hstep & _ & _).
    apply IH; [exact Hstep | |].
    + destruct (step_send_shape sys e Hsys)
        as [(Hf & Ht & _) | [(_ & [k Hk] & _) | (_ & _ & Ht & _)]].
      * rewrite Hf, Ht. exact Hidle.
      * rewrite Hk. discriminate.
      * intros _. exact Ht.
    + destruct (step_send_shape sys e Hsys)
        as [(_ & _ & Hs) | [(_ & _ & _ & Hs) | (_ & _ & _ & [Hs | (u & m & Hu & Hm & Hs)])]];
        rewrite Hs; try exact Hex.
      apply exchanges_app_pair; assumption.
Qed.

Lemma mounted_idle (clock : nat -> Z) (lib : bool) :
  fetching (mounted clock lib) = [] /\
  isTyping (state (world (mounted clock lib))) = false /\
  modelSession (mounted clock lib) = [] /\
  conversationLog (mounted clock lib) =
    [ {| id := "welcome"; sender := assistant;
         text := "Hi, how can I help you today? You can also upload PDF files for me to analyze!";
         timestamp := clock 0%nat; hasAttachment := None; attachmentName := None |} ].
Proof. destruct lib; repeat split. Qed.

(** X13. In every state the mounted component can reach, whatever the
    events and their order, at most one send is in flight, and the typing
    flag is set exactly while one is: two requests are never outstanding
    together, and the flag is never left set after the answer. *)
Theorem one_send_in_flight (clock : nat -> Z) (lib : bool) (es : list Event) :
  let sys := steps (mounted clock lib) es in
  List.length (fetching sys) <= 1 /\
  (isTyping (state (world sys)) = true <-> fetching sys <> []).
Proof.
  intros sys. destruct (mounted_idle clock lib) as (Hf & Ht & Hs & _).
  destruct (steps_send_invariant es (mounted clock lib) (mounted_consistent clock lib))
    as ([_ Hsend] & Hidle & _).
  { intros _. exact Ht. }
  { rewrite Hs. reflexivity. }
  fold sys in Hsend, Hidle.
  destruct (fetching sys) as [|k [|k1 rest]]; [| |contradiction].
  - split; [cbn; lia|]. rewrite (Hidle eq_refl). split; [discriminate | intros H; contradiction].
  - destruct Hsend as [Hbusy _]. split; [cbn; lia|].
    split; [discriminate | intros _; exact Hbusy].
Qed.

(** X14. In every state the mounted component can reach, the model session
    is a sequence of exchanges: a user turn followed by a model turn, again
    and again. A failed send leaves no lone user turn behind. *)
Theorem session_is_made_of_exchanges (clock : nat -> Z) (lib : bool) (es : list Event) :
  exchanges (modelSession (steps (mounted clock lib) es)) = true.
Proof.
  destruct (mounted_idle clock lib) as (_ & Ht & Hs & _).
  destruct (steps_send_invariant es (mounted clock lib) (mounted_consistent clock lib))
    as (_ & _ & Hex).
  - intros _. exact Ht.
  - rewrite Hs. reflexivity.
  - exact Hex.
Qed.

(** X15. In every state the mounted component can reach, the conversation
    log starts with the welcome message written at mount. *)
Theorem welcome_stays_first (clock : nat -> Z) (lib : bool) (es : list Event) :
  hd_error (conversationLog (steps (mounted clock lib) es)) =
    Some {| id := "welcome"; sender := assistant;
            text :=
              "Hi, how can I help you today? You can also upload PDF files for me to analyze!";
            timestamp := clock 0%nat; hasAttachment := None; attachmentName := None |}.
Proof.
  destruct (mounted_idle clock lib) as (_ & _ & _ & Hlog).
  destruct (steps_consistent es (mounted clock lib) (mounted_consistent clock lib))
    as (_ & [added Hprefix] & _).
  rewrite Hprefix, Hlog. reflexivity.
Qed.

(** What is left of an upload ends with the processing flag released. *)
Lemma uploading_releases (k : Prog unit) (w : World) :
  uploading k ->
  exists w' os c, exec k w = (w', os, Done c) /\ isProcessingFile (state w') = false.
Proof.
  intros (s & lib & files0 & w0 & w1 & os & Hexec). unfold handleFileUpload in Hexec.
  destruct files0 as [file|]; [|discriminate Hexec].
  destruct (negb (file_type file =? "application/pdf")); [discriminate Hexec|].
  destruct (negb (pdfJsLoaded s)) eqn:Hloaded; [discriminate Hexec|].
  unfold extractTextFromPDF in Hexec. rewrite Hloaded in Hexec.
  destruct (negb lib); cbn in Hexec; [discriminate Hexec|].
  injection Hexec as _ _ Hk. subst k.
  destruct (file_data file) as [|[pdf|]]; cbn.
  - do 3 eexists. split; reflexivity.
  - destruct (pages_loop_emits pdf (numPages pdf) 1 "") as (es & c & Heq).
    rewrite Heq, try_catch_emits, bind_emits, try_catch_emits, try_finally_emits, exec_emits.
    destruct c as [fullText|e]; cbn; do 3 eexists; split; reflexivity.
  - do 3 eexists. split; reflexivity.
Qed.

Lemma handleFileUpload_flag (s : State) (lib : bool) (files0 : option File) (w : World) :
  exists w' os st,
    exec (handleFileUpload s lib files0) w = (w', os, st) /\
    match st with
    | Done _ =>
        isProcessingFile (state w') = isProcessingFile (state w) \/
        isProcessingFile (state w') = false
    | OnFetch _ => False
    | OnYield _ => isProcessingFile (state w') = true
    end.
Proof.
  unfold handleFileUpload. destruct files0 as [file|].
  2:{ do 3 eexists. split; [reflexivity|]. left. reflexivity. }
  destruct (negb (file_type file =? "application/pdf")).
  { do 3 eexists. split; [reflexivity|]. left. reflexivity. }
  destruct (negb (pdfJsLoaded s)) eqn:Hloaded.
  { do 3 eexists. split; [reflexivity|]. left. reflexivity. }
  unfold extractTextFromPDF. rewrite Hloaded. cbn.
  destruct (negb lib); cbn.
  - do 3 eexists. split; [reflexivity|]. right. reflexivity.
  - do 3 eexists. split; reflexivity.
Qed.

(** What an event does to the uploads in flight and the processing flag. *)
Lemma step_upload_shape (sys : System) (e : Event) :
  consistent sys ->
  (resuming (step sys e) = resuming sys /\
   (isProcessingFile (state (world (step sys e))) = isProcessingFile (state (world sys)) \/
    (isProcessingFile (state (world (step sys e))) = false /\
     exists files0, e = ChooseFile files0))) \/
  ((exists files0, e = ChooseFile files0) /\
   (exists k, resuming (step sys e) = (resuming sys ++ [k])%list) /\
   isProcessingFile (state (world (step sys e))) = true) \/
  (exists n, n < List.length (resuming sys) /\
     resuming (step sys e) = remove_at n (resuming sys) /\
     isProcessingFile (state (world (step sys e))) = false).
Proof.
  intros [Hup Hsend]. destruct e as [value| |files0|index| |n net|n]; unfold step.
  - left. split; [reflexivity | left; reflexivity].
  - left. destruct (truthy (trim (input (state (world sys))))) eqn:Htext;
      [destruct (isTyping (state (world sys))) eqn:Htyping|].
    2:{ destruct (handleSend_starts _ (world sys) Htext Htyping) as [k Hk].
        unfold launch. rewrite Hk. split; [reflexivity | left; reflexivity]. }
    all: assert (Hnoop : exec (handleSend (state (world sys))) (world sys)
                         = (world sys, [], Done (Return tt)))
        by (unfold handleSend; rewrite ?Htext, ?Htyping; cbn; rewrite ?orb_true_r; reflexivity);
      unfold launch; rewrite Hnoop, system_eta; split; [reflexivity | left; reflexivity].
  - destruct (handleFileUpload_flag (state (world sys)) (window_pdfjsLib sys) files0 (world sys))
      as (w' & os & st & Hexec & Hflag).
    unfold launch. rewrite Hexec. destruct st as [c|k|k]; [|contradiction|]; cbn.
    + left. split; [reflexivity|]. destruct Hflag as [Hsame | Hfalse].
      * left. exact Hsame.
      * right. split; [exact Hfalse | exists files0; reflexivity].
    + right. left. repeat split; [exists files0; reflexivity | exists k; reflexivity | exact Hflag].
  - left. split; [reflexivity | left; reflexivity].
  - left. split; [reflexivity | left; reflexivity].
  - left. destruct (fetching sys) as [|k [|k1 rest]] eqn:Hfetching; [| |contradiction].
    + destruct n; cbn; split; try reflexivity; left; reflexivity.
    + destruct Hsend as (Hbusy & s & Hk & Hs).
      destruct n as [|n]; cbn.
      * unfold launch. rewrite (handleSend_settles s k net _ Hk). cbn.
        split; [reflexivity | left; reflexivity].
      * destruct n; cbn; split; try reflexivity; left; reflexivity.
  - destruct (nth_error (resuming sys) n) as [k|] eqn:Hnth.
    2:{ left. split; [reflexivity | left; reflexivity]. }
    assert (Hk : uploading k).
    { rewrite Forall_forall in Hup. apply Hup. eapply nth_error_In. exact Hnth. }
    destruct (uploading_releases k (world sys) Hk) as (w' & os & c & Hexec & Hflag).
    right. right. exists n. split.
    { apply nth_error_Some. congruence. }
    unfold launch; cbn. rewrite Hexec. cbn. split; [reflexivity | exact Hflag].
Qed.

Lemma page_steps_upload_invariant (es : list Event) (sys sys' : System) :
  consistent sys ->
  (resuming sys = [] /\ isProcessingFile (state (world sys)) = false) \/
  ((exists k, resuming sys = [k]) /\ isProcessingFile (state (world sys)) = true) ->
  page_steps sys es = Some sys' ->
  (resuming sys' = [] /\ isProcessingFile (state (world sys')) = false) \/
  ((exists k, resuming sys' = [k]) /\ isProcessingFile (state (world sys')) = true).
Proof.
  revert sys. induction es as [|e es IH]; intros sys Hsys Hinv Hsteps; cbn in Hsteps.
  - injection Hsteps as <-. exact Hinv.
  - destruct (allowed sys e) eqn:Hallowed; [|discriminate Hsteps].
    destruct (step_consistent sys e Hsys) as (Hstep & _ & _).
    apply (IH (step sys e) Hstep); [|exact Hsteps].
    assert (Hchoose : (exists files0, e = ChooseFile files0) ->
                      isProcessingFile (state (world sys)) = false).
    { intros [files0 ->]. cbn in Hallowed. unfold attachDisabled in Hallowed.
      apply negb_true_iff, orb_false_elim in Hallowed as [H _]. exact H. }
    destruct (step_upload_shape sys e Hsys)
      as [(Hr & Hflag) | [(Hfile & [k Hr] & Hflag) | (n & Hn & Hr & Hflag)]].
    + rewrite Hr. destruct Hflag as [Hflag | [Hflag Hfile]].
      * rewrite Hflag. exact Hinv.
      * specialize (Hchoose Hfile).
        destruct Hinv as [[Hnil _] | [_ Htrue]]; [|congruence].
        left. split; assumption.
    + specialize (Hchoose Hfile).
      destruct Hinv as [[Hnil _] | [_ Htrue]]; [|congruence].
      right. split; [|exact Hflag]. exists k. rewrite Hr, Hnil. reflexivity.
    + destruct Hinv as [[Hnil _] | [[k Hone] _]].
      * rewrite Hnil in Hn. cbn in Hn. lia.
      * left. split; [|exact Hflag]. rewrite Hr, Hone.
        rewrite Hone in Hn. cbn in Hn. replace n with 0 by lia. reflexivity.
Qed.

(** X16. On the rendered page, where the attach button is disabled while a
    file is processed or PDF.js is not loaded, at most one upload is in
    flight in every reachable state, and the processing flag is set exactly
    while one is. *)
Theorem one_upload_in_flight_on_page
  (clock : nat -> Z) (lib : bool) (es : list Event) (sys : System) :
  page_steps (mounted clock lib) es = Some sys ->
  List.length (resuming sys) <= 1 /\
  (isProcessingFile (state (world sys)) = true <-> resuming sys <> []).
Proof.
  intros Hsteps.
  destruct (page_steps_upload_invariant es (mounted clock lib) sys
              (mounted_consistent clock lib)) as [[Hnil Hflag] | [[k Hone] Hflag]].
  - left. destruct lib; split; reflexivity.
  - exact Hsteps.
  - rewrite Hnil, Hflag. split; [cbn; lia|].
    split; [discriminate | intros H; contradiction].
  - rewrite Hone, Hflag. split; [cbn; lia|].
    split; [discriminate | reflexivity].
Qed.

Lemma one_upload_in_flight_on_page_witness :
  exists sys,
    page_steps (mounted (fun n => Z.of_nat n) true)
      [ChooseFile (Some (pdfFile twoPages)); Typing "Hello"; PressSend] = Some sys /\
    List.length (resuming sys) = 1 /\
    isProcessingFile (state (world sys)) = true.
Proof.
  eexists. split; [reflexivity|].
  split; [reflexivity|].
  eapply (one_upload_in_flight_on_page (fun n => Z.of_nat n) true
            [ChooseFile (Some (pdfFile twoPages)); Typing "Hello"; PressSend]).
  - reflexivity.
  - discriminate.
Defined.

(** Off the page's controls the flag says less: with two uploads started in
    a row, the flag is released when the first one ends although the second
    is still in flight. *)
Example flag_released_with_upload_in_flight :
  let sys := steps (mounted (fun n => Z.of_nat n) true)
               [ChooseFile (Some (pdfFile twoPages)); ChooseFile (Some (pdfFile brokenPage));
                Resumes 0] in
  List.length (resuming sys) = 1 /\
  isProcessingFile (state (world sys)) = false.
Proof. split; reflexivity. Qed.

(** ** The PDF.js script and its flag *)

Lemma uploading_keeps_pdfJsLoaded (k : Prog unit) (w : World) :
  uploading k ->
  exists w' os c, exec k w = (w', os, Done c) /\
    pdfJsLoaded (state w') = pdfJsLoaded (state w).
Proof.
  intros (s & lib & files0 & w0 & w1 & os & Hexec). unfold handleFileUpload in Hexec.
  destruct files0 as [file|]; [|discriminate Hexec].
  destruct (negb (file_type file =? "application/pdf")); [discriminate Hexec|].
  destruct (negb (pdfJsLoaded s)) eqn:Hloaded; [discriminate Hexec|].
  unfold extractTextFromPDF in Hexec. rewrite Hloaded in Hexec.
  destruct (negb lib); cbn in Hexec; [discriminate Hexec|].
  injection Hexec as _ _ Hk. subst k.
  destruct (file_data file) as [|[pdf|]]; cbn.
  - do 3 eexists. split; reflexivity.
  - destruct (pages_loop_emits pdf (numPages pdf) 1 "") as (es & c & Heq).
    rewrite Heq, try_catch_emits, bind_emits, try_catch_emits, try_finally_emits, exec_emits.
    destruct c as [fullText|e]; cbn; do 3 eexists; split; reflexivity.
  - do 3 eexists. split; reflexivity.
Qed.

Lemma handleFileUpload_keeps_pdfJsLoaded
  (s : State) (lib : bool) (files0 : option File) (w : World) :
  pdfJsLoaded (after (exec (handleFileUpload s lib files0) w)) = pdfJsLoaded (state w).
Proof.
  unfold handleFileUpload, after. destruct files0 as [file|]; [|reflexivity].
  destruct (negb (file_type file =? "application/pdf")); [reflexivity|].
  destruct (negb (pdfJsLoaded s)) eqn:Hloaded; [reflexivity|].
  unfold extractTextFromPDF. rewrite Hloaded. cbn.
  destruct (negb lib); reflexivity.
Qed.

Lemma launch_world (p : Prog unit) (sys : System) :
  world (launch p sys) = fst (fst (exec p (world sys))) /\
  window_pdfjsLib (launch p sys) = window_pdfjsLib sys.
Proof.
  unfold launch. destruct (exec p (world sys)) as [[w os] [c|k|k]]; split; reflexivity.
Qed.

Lemma step_keeps_script (sys : System) (e : Event) :
  consistent sys ->
  implb (pdfJsLoaded (state (world sys))) (window_pdfjsLib sys) = true ->
  implb (pdfJsLoaded (state (world (step sys e)))) (window_pdfjsLib (step sys e)) = true.
Proof.
  intros [Hup Hsend] Hinv. destruct e as [value| |files0|index| |n net|n]; unfold step.
  - exact Hinv.
  - destruct (launch_world (handleSend (state (world sys))) sys) as [-> ->].
    destruct (truthy (trim (input (state (world sys))))) eqn:Htext;
      [destruct (isTyping (state (world sys))) eqn:Htyping|].
    2:{ destruct (handleSend_starts _ (world sys) Htext Htyping) as [k ->]. exact Hinv. }
    all: unfold handleSend; rewrite ?Htext, ?Htyping; cbn; rewrite ?orb_true_r; exact Hinv.
  - destruct (launch_world
                (handleFileUpload (state (world sys)) (window_pdfjsLib sys) files0) sys)
      as [-> ->].
    pose proof (handleFileUpload_keeps_pdfJsLoaded (state (world sys))
                  (window_pdfjsLib sys) files0 (world sys)) as Hkeep.
    unfold after in Hkeep. rewrite Hkeep. exact Hinv.
  - exact Hinv.
  - reflexivity.
  - destruct (fetching sys) as [|k [|k1 rest]] eqn:Hfetching; [| |contradiction].
    + destruct n; exact Hinv.
    + destruct Hsend as (Hbusy & s & Hk & Hs).
      destruct n as [|n]; cbn.
      * unfold launch. rewrite (handleSend_settles s k net _ Hk). exact Hinv.
      * destruct n; exact Hinv.
  - destruct (nth_error (resuming sys) n) as [k|] eqn:Hnth; [|exact Hinv].
    assert (Hk : uploading k).
    { rewrite Forall_forall in Hup. apply Hup. eapply nth_error_In. exact Hnth. }
    destruct (uploading_keeps_pdfJsLoaded k (world sys) Hk) as (w' & os & c & Hexec & Hkeep).
    unfold launch; cbn. rewrite Hexec. cbn. rewrite Hkeep. exact Hinv.
Qed.

Lemma steps_keep_script (es : list Event) (sys : System) :
  consistent sys ->
  implb (pdfJsLoaded (state (world sys))) (window_pdfjsLib sys) = true ->
  implb (pdfJsLoaded (state (world (steps sys es)))) (window_pdfjsLib (steps sys es)) = true.
Proof.
  revert sys. induction es as [|e es IH]; intros sys Hsys Hinv; cbn; [exact Hinv|].
  destruct (step_consistent sys e Hsys) as (Hstep & _ & _).
  apply IH; [exact Hstep | apply step_keeps_script; assumption].
Qed.

(** X17. In every state the mounted component can reach, the loaded flag is
    set only if the PDF.js script is there. So the check of
    [extractTextFromPDF] never fails after the check of [handleFileUpload]
    has passed: choosing a file never ends, before the file is read, with
    the alert that processing failed. *)
Theorem loaded_flag_means_script (clock : nat -> Z) (lib : bool) (es : list Event)
  (files0 : option File) :
  let sys := steps (mounted clock lib) es in
  implb (pdfJsLoaded (state (world sys))) (window_pdfjsLib sys) = true /\
  ~ In (Alert "Failed to process PDF file. Please try again.")
       (effects (exec (handleFileUpload (state (world sys)) (window_pdfjsLib sys) files0)
                   (world sys))).
Proof.
  intros sys.
  assert (Hinv : implb (pdfJsLoaded (state (world sys))) (window_pdfjsLib sys) = true).
  { apply steps_keep_script; [apply mounted_consistent | destruct lib; reflexivity]. }
  split; [exact Hinv|].
  unfold handleFileUpload, effects. destruct files0 as [file|]; [|intros []].
  destruct (negb (file_type file =? "application/pdf")).
  { cbn. intros [H | []]. discriminate H. }
  destruct (negb (pdfJsLoaded (state (world sys)))) eqn:Hloaded.
  { cbn. intros [H | []]. discriminate H. }
  apply negb_false_iff in Hloaded. rewrite Hloaded in Hinv. cbn in Hinv.
  unfold extractTextFromPDF. rewrite Hloaded, Hinv. cbn. intros [].
Qed.

(** ** From one send to the next *)

(** X18. After a send, the request of the next one carries the session
    followed by the new question, trimmed and without file context: the
    attachments have been cleared by the first send whether it succeeded or
    not. The session it carries includes the first exchange if the first
    send succeeded; if it failed, neither its question nor an answer is
    there. *)
Theorem next_request_after_a_send (net1 net2 : FetchResult) (value : string) (w : World) :
  truthy (trim (input (state w))) = true ->
  isTyping (state w) = false ->
  truthy (trim value) = true ->
  effects (send net2 (typed value (fst (fst (send net1 w))))) =
    [Post
       ((if succeeds net1
         then (conversationHistory (state w)
                 ++ [userTurn (state w); modelTurn (replyText net1)])%list
         else conversationHistory (state w))
          ++ [ {| role := role_user; parts := [ {| part_text := trim value |} ] |} ])%list].
Proof.
  intros Htext Htyping Hvalue. unfold send at 2.
  rewrite (run_handleSend _ w net1 Htext Htyping). unfold typed, send. cbn.
  rewrite run_handleSend; [| exact Hvalue | reflexivity]. reflexivity.
Qed.

Lemma next_request_after_a_send_witness :
  effects (send FetchRejects (typed "Again" (fst (fst (send FetchRejects scenarioB))))) =
    [Post [ {| role := role_user; parts := [ {| part_text := "Again" |} ] |} ]] /\
  effects (send FetchRejects (typed "More" (fst (fst (send (textReply "Summary") scenarioB))))) =
    [Post [ userTurn (state scenarioB); modelTurn "Summary";
            {| role := role_user; parts := [ {| part_text := "More" |} ] |} ]].
Proof.
  split.
  - apply (next_request_after_a_send FetchRejects FetchRejects "Again" scenarioB);
      reflexivity.
  - apply (next_request_after_a_send (textReply "Summary") FetchRejects "More" scenarioB);
      reflexivity.
Defined.
